(** * enforce/settings.py: the configuration engine, embedded and verified

    The module keeps one process-wide object, [_GLOBAL_SETTINGS], whose
    instance dictionary maps attribute names to Python values.  [config]
    shapes a partial update and [apply_config] folds it into that object;
    [Settings] is a per-call-site view that only reads it.

    Python dictionaries that are iterated (the option structures and the
    group table) are association lists in insertion order; the instance
    dictionary of the global object, which the module reaches by key only,
    is a [gmap].  Functions that read or write the global object live in a
    state-and-exception monad over that map. *)

From stdpp Require Import gmap strings list fin_maps.

Open Scope string_scope.

(** ** Values *)

(** [class ModeChoices(enum.Enum)] *)
Inductive ModeChoices : Type :=
  | invariant
  | covariant
  | contravariant
  | bivariant.

(** The Python values the module handles.  A [VDict] keeps its items in
    insertion order, keys being strings. *)
#[warnings="-register-all"]
Inductive pyval : Type :=
  | VNone
  | VBool (b : bool)
  | VInt (z : Z)
  | VStr (s : string)
  | VMode (m : ModeChoices)
  | VDict (items : list (string * pyval)).

Abbreviation dict := (list (string * pyval)).

(** The instance dictionary [__dict__] of [GlobalSettingsObject]. *)
Abbreviation GlobalSettingsObject := (gmap string pyval).

(** Python truth value: [None], [False], [0], the empty string and the empty
    dictionary are false; members of a plain [Enum] are always true. *)
Definition truthy (v : pyval) : bool :=
  match v with
  | VNone => false
  | VBool b => b
  | VInt z => negb (Z.eqb z 0)
  | VStr s => negb (String.eqb s EmptyString)
  | VMode _ => true
  | VDict items => match items with [] => false | _ :: _ => true end
  end.

(** [v is None] *)
Definition is_None (v : pyval) : bool :=
  match v with VNone => true | _ => false end.

(** ** Dictionary operations on association lists *)

(** [d.get(k)], [None] when the key is absent. *)
Fixpoint dict_get (d : dict) (k : string) : option pyval :=
  match d with
  | [] => None
  | (k', v) :: tl => if String.eqb k' k then Some v else dict_get tl k
  end.

(** [d.get(k, dflt)] *)
Definition dict_get_default (d : dict) (k : string) (dflt : pyval) : pyval :=
  match dict_get d k with Some v => v | None => dflt end.

(** [k in d] *)
Definition dict_mem (d : dict) (k : string) : bool :=
  match dict_get d k with Some _ => true | None => false end.

(** [d[k] = v]: an existing key keeps its position, a new one goes last. *)
Fixpoint dict_set (d : dict) (k : string) (v : pyval) : dict :=
  match d with
  | [] => [(k, v)]
  | (k', v') :: tl =>
      if String.eqb k' k then (k, v) :: tl else (k', v') :: dict_set tl k v
  end.

(** [d.update(u)]: the items of [u] are stored one after the other. *)
Definition dict_update (d u : dict) : dict :=
  fold_left (fun acc kv => dict_set acc (fst kv) (snd kv)) u d.

(** [for k in d: d[k] = v] *)
Definition dict_set_all (d : dict) (v : pyval) : dict :=
  map (fun kv => (fst kv, v)) d.

(** ** Exceptions and the monad of the module's functions *)

(** [KeyError] carries its argument: the missing key for a failed lookup,
    the message for the errors [apply_config] raises itself. *)
Inductive exn : Type :=
  | KeyError (arg : string)
  | AttributeError
  | TypeError.

Inductive result (A : Type) : Type :=
  | Ok (a : A)
  | Raise (e : exn).
Arguments Ok {A} a.
Arguments Raise {A} e.

(** A computation reads and writes [_GLOBAL_SETTINGS]; what it wrote before
    raising stays written. *)
Definition M (A : Type) : Type :=
  GlobalSettingsObject -> result A * GlobalSettingsObject.

Definition ret {A} (a : A) : M A := fun gs => (Ok a, gs).

Definition raise {A} (e : exn) : M A := fun gs => (Raise e, gs).

Definition bind {A B} (c : M A) (k : A -> M B) : M B :=
  fun gs =>
    match c gs with
    | (Ok a, gs') => k a gs'
    | (Raise e, gs') => (Raise e, gs')
    end.

Notation "'let*' x ':=' c 'in' k" := (bind c (fun x => k))
  (at level 10, x pattern, c at level 100, k at level 200, right associativity).
Notation "c1 '>>' c2" := (bind c1 (fun _ => c2))
  (at level 100, c2 at level 200, right associativity).

(** [for x in l: body(x)], stopping at the first exception. *)
Fixpoint for_each {A} (l : list A) (body : A -> M unit) : M unit :=
  match l with
  | [] => ret tt
  | x :: tl => body x >> for_each tl body
  end.

(** [for x in l: acc = body(acc, x)] for loops that build local variables. *)
Fixpoint for_fold {A S} (l : list A) (body : S -> A -> M S) (acc : S) : M S :=
  match l with
  | [] => ret acc
  | x :: tl => let* acc' := body acc x in for_fold tl body acc'
  end.

(** ** [GlobalSettingsObject] *)

(** [GlobalSettingsObject.__init__] *)
Definition GlobalSettingsObject_init : GlobalSettingsObject :=
  <["groups" := VDict []]>
    (<["mode" := VMode invariant]>
       (<["default" := VBool true]> (<["enabled" := VBool true]> ∅))).

(** [_GLOBAL_SETTINGS = GlobalSettingsObject()] *)
Definition _GLOBAL_SETTINGS : GlobalSettingsObject := GlobalSettingsObject_init.

(** [__getitem__]: [self.__dict__[item]] *)
Definition getitem (item : string) : M pyval :=
  fun gs =>
    match gs !! item with
    | Some v => (Ok v, gs)
    | None => (Raise (KeyError item), gs)
    end.

(** [__setitem__]: [self.__dict__[key] = value] *)
Definition setitem (key : string) (value : pyval) : M unit :=
  fun gs => (Ok tt, <[key := value]> gs).

(** [__delitem__]: [del self.__dict__[key]] *)
Definition delitem (key : string) : M unit :=
  fun gs =>
    match gs !! key with
    | Some _ => (Ok tt, delete key gs)
    | None => (Raise (KeyError key), gs)
    end.

(** [__iter__]: the keys of [self.__dict__] *)
Definition iter_keys : M (list string) :=
  fun gs => (Ok (map_to_list gs).*1, gs).

(** [__len__] *)
Definition len : M nat := fun gs => (Ok (size gs), gs).

(** ** [class Settings] *)

Record Settings : Type := {
  group : string;
  _enabled : pyval
}.

(** [Settings.__init__]: [self.group = group or 'default'], so both a
    missing and an empty group name give ['default']. *)
Definition Settings_init (enabled : pyval) (group : option string) : Settings :=
  {| group := match group with
              | Some g => if String.eqb g EmptyString then "default" else g
              | None => "default"
              end;
     _enabled := enabled |}.

(** The [enabled] property. *)
Definition enabled (self : Settings) : M pyval :=
  let* e := getitem "enabled" in
  if negb (truthy e) then ret (VBool false)
  else if is_None (_enabled self) then
    let* g := getitem "groups" in
    match g with
    | VDict d => ret (dict_get_default d (group self) (VBool false))
    | _ => raise AttributeError
    end
  else ret (_enabled self).

(** The setter of [enabled]: [self._enabled = value].  It runs in the same
    monad as everything else and hands back the updated instance. *)
Definition set_enabled (self : Settings) (value : pyval) : M Settings :=
  ret {| group := group self; _enabled := value |}.

(** The [mode] property: [_GLOBAL_SETTINGS['mode'] or ModeChoices.invariant] *)
Definition mode (self : Settings) : M pyval :=
  let* m := getitem "mode" in
  ret (if truthy m then m else VMode invariant).

(** The [covariant] property. *)
Definition is_covariant (self : Settings) : M pyval :=
  let* m := getitem "mode" in
  ret (VBool match m with
             | VMode covariant | VMode bivariant => true
             | _ => false
             end).

(** The [contravariant] property. *)
Definition is_contravariant (self : Settings) : M pyval :=
  let* m := getitem "mode" in
  ret (VBool match m with
             | VMode contravariant | VMode bivariant => true
             | _ => false
             end).

(** [Settings.__bool__]: [bool(self.enabled)] *)
Definition Settings_bool (self : Settings) : M pyval :=
  let* e := enabled self in
  ret (VBool (truthy e)).

(** ** [reset_config] *)

Definition default_values : dict :=
  [("enabled", VBool true);
   ("default", VBool true);
   ("mode", VMode invariant);
   ("groups", VNone)].

(** [_GLOBAL_SETTINGS['groups'].clear()]; the table is emptied where it
    stands, which for this model is a store of the empty table. *)
Definition groups_clear : M unit :=
  let* g := getitem "groups" in
  match g with
  | VDict _ => setitem "groups" (VDict [])
  | _ => raise AttributeError
  end.

Definition reset_config : M unit :=
  let* keys := iter_keys in
  let keys_to_remove :=
    filter (fun key => dict_mem default_values key = false) keys in
  for_each keys_to_remove delitem >>
  for_each default_values
    (fun kv => if is_None (snd kv) then ret tt else setitem (fst kv) (snd kv)) >>
  groups_clear.

(** ** [parse_config] *)

(** Modelled from the spec: [merge_dictionaries] of [enforce/utils.py], which
    [settings.py] imports.  Every key of the defaults is kept, in the
    defaults' order: with the default's value when the update omits the key,
    merged recursively when both values are mappings, and with the update's
    value verbatim otherwise ([None] included).  Keys that only the update has
    are carried along after them, since the merge does not validate and leaves
    their rejection to [apply_config].  Neither input is changed.  On two
    values that are not both mappings the verbatim rule applies as well. *)
Fixpoint merge_dictionaries (original_data update : pyval) {struct original_data}
  : pyval :=
  match original_data with
  | VDict ditems =>
      match update with
      | VDict uitems =>
          VDict
            ((fix merge_items (l : dict) : dict :=
                match l with
                | [] => []
                | (k, v) :: tl =>
                    (k, match dict_get uitems k with
                        | Some u => merge_dictionaries v u
                        | None => v
                        end) :: merge_items tl
                end) ditems
             ++ List.filter (fun kv => negb (dict_mem ditems (fst kv))) uitems)%list
      | _ => update
      end
  | _ => update
  end.

Definition default_options : pyval :=
  VDict
    [("enabled", VNone);
     ("groups",
      VDict [("set", VDict []);
             ("disable_previous", VBool false);
             ("enable_previous", VBool false);
             ("clear_previous", VBool false);
             ("default", VNone)]);
     ("mode", VNone)].

Definition parse_config (options : pyval) : pyval :=
  merge_dictionaries default_options options.

(** ** [apply_config] *)

(** [ModeChoices[name]] for a string. *)
Definition ModeChoices_by_name (name : string) : option ModeChoices :=
  if String.eqb name "invariant" then Some invariant
  else if String.eqb name "covariant" then Some covariant
  else if String.eqb name "contravariant" then Some contravariant
  else if String.eqb name "bivariant" then Some bivariant
  else None.

Definition reserved_group_message : string :=
  "Cannot set 'default' group status, use 'default' option rather than 'set'".

Definition invalid_mode_message : string :=
  "Mode must be one of mode choices".

Definition unknown_group_option_message (k : string) : string :=
  String.append "Unknown option for groups '" (String.append k "'").

Definition unknown_option_message (key : string) : string :=
  String.append "Unknown option '" (String.append key "'").

(** One turn of [for group_name, group_status in v.items()]. *)
Definition set_item (group_update : dict) (kv : string * pyval) : M dict :=
  let '(group_name, group_status) := kv in
  if String.eqb group_name "default" then raise (KeyError reserved_group_message)
  else if is_None group_status then ret group_update
  else ret (dict_set group_update group_name group_status).

(** One turn of [for k, v in value.items()]; the locals [group_update] and
    [previous_update] are the accumulator. *)
Definition groups_item (value : dict) (acc : dict * list string)
    (kv : string * pyval) : M (dict * list string) :=
  let '(group_update, previous_update) := acc in
  let '(k, v) := kv in
  if String.eqb k "disable_previous" then
    ret (group_update, if truthy v then (previous_update ++ ["d"])%list else previous_update)
  else if String.eqb k "enable_previous" then
    ret (group_update, if truthy v then (previous_update ++ ["e"])%list else previous_update)
  else if String.eqb k "clear_previous" then
    ret (group_update, if truthy v then (previous_update ++ ["c"])%list else previous_update)
  else if String.eqb k "default" then
    if is_None v then ret acc
    else match dict_get value "default" with
         | Some d => setitem "default" d >> ret acc
         | None => raise (KeyError "default")
         end
  else if String.eqb k "set" then
    match v with
    | VDict items =>
        let* group_update' := for_fold items set_item group_update in
        ret (group_update', previous_update)
    | _ => raise AttributeError
    end
  else raise (KeyError (unknown_group_option_message k)).

(** [for group_name in _GLOBAL_SETTINGS['groups']:
       _GLOBAL_SETTINGS['groups'][group_name] = b].
    An empty string in the slot is iterated without a turn; anything else
    that is not a table fails to iterate or to take the assignment. *)
Definition groups_force (b : bool) : M unit :=
  let* g := getitem "groups" in
  match g with
  | VDict d => setitem "groups" (VDict (dict_set_all d (VBool b)))
  | VStr EmptyString => ret tt
  | _ => raise TypeError
  end.

(** [_GLOBAL_SETTINGS['groups'].update(group_update)] *)
Definition groups_update (group_update : dict) : M unit :=
  let* g := getitem "groups" in
  match g with
  | VDict d => setitem "groups" (VDict (dict_update d group_update))
  | _ => raise AttributeError
  end.

(** ['x' in previous_update] *)
Definition flag_in (x : string) (previous_update : list string) : bool :=
  existsb (String.eqb x) previous_update.

Definition when (b : bool) (c : M unit) : M unit := if b then c else ret tt.

(** The branch [elif key == 'groups']. *)
Definition apply_groups (value : pyval) : M unit :=
  match value with
  | VDict items =>
      let* acc := for_fold items (groups_item items) ([], []) in
      let '(group_update, previous_update) := acc in
      when (match previous_update with [] => false | _ :: _ => true end)
        (when (flag_in "d" previous_update) (groups_force false) >>
         when (flag_in "e" previous_update) (groups_force true) >>
         when (flag_in "c" previous_update) groups_clear) >>
      groups_update group_update
  | _ => raise AttributeError
  end.

(** The branch [elif key == 'mode'] for a value that is not [None]: the
    [KeyError] of the enum lookup is re-raised with the module's message; a
    dictionary cannot be hashed and fails before the lookup. *)
Definition apply_mode (value : pyval) : M unit :=
  match value with
  | VStr name =>
      match ModeChoices_by_name name with
      | Some m => setitem "mode" (VMode m)
      | None => raise (KeyError invalid_mode_message)
      end
  | VDict _ => raise TypeError
  | _ => raise (KeyError invalid_mode_message)
  end.

(** One turn of [for key, value in options.items()]. *)
Definition apply_option (kv : string * pyval) : M unit :=
  let '(key, value) := kv in
  if String.eqb key "enabled" then
    when (negb (is_None value)) (setitem "enabled" value)
  else if String.eqb key "groups" then apply_groups value
  else if String.eqb key "mode" then
    when (negb (is_None value)) (apply_mode value)
  else raise (KeyError (unknown_option_message key)).

Definition apply_config (options reset : pyval) : M unit :=
  if truthy reset then reset_config
  else if is_None options then ret tt
  else match options with
       | VDict items => for_each items apply_option
       | _ => raise AttributeError
       end.

(** ** [config] *)

Definition config (options reset : pyval) : M unit :=
  let parsed_config :=
    if negb (truthy reset) then parse_config options else VNone in
  apply_config parsed_config reset.

(** ** Vocabulary of the statements *)

(** [ModeChoices.name] *)
Definition ModeChoices_name (m : ModeChoices) : string :=
  match m with
  | invariant => "invariant"
  | covariant => "covariant"
  | contravariant => "contravariant"
  | bivariant => "bivariant"
  end.

(** What the loop over ['set'] leaves in [group_update]: the entries whose
    status is not [None], stored in order. *)
Definition pending_updates (s : dict) (acc : dict) : dict :=
  fold_left
    (fun acc kv => if is_None (snd kv) then acc else dict_set acc (fst kv) (snd kv))
    s acc.

(** A fully shaped ['groups'] structure, keys in the order of
    [default_options]. *)
Definition shaped_groups (s : dict) (fd fe fc dv : pyval) : pyval :=
  VDict [("set", VDict s);
         ("disable_previous", fd);
         ("enable_previous", fe);
         ("clear_previous", fc);
         ("default", dv)].

(** A fully shaped options structure. *)
Definition shaped_options (en groups md : pyval) : pyval :=
  VDict [("enabled", en); ("groups", groups); ("mode", md)].

(** The group table after the bulk flags in the order disable, enable,
    clear, with the pending updates of ['set'] merged last. *)
Definition groups_after (g s : dict) (fd fe fc : pyval) : dict :=
  let g1 := if truthy fd then dict_set_all g (VBool false) else g in
  let g2 := if truthy fe then dict_set_all g1 (VBool true) else g1 in
  let g3 := if truthy fc then [] else g2 in
  dict_update g3 (pending_updates s []).

(** The status of group [k] after a ['groups'] update, read off the
    precedence alone.  A status that ['set'] gives and that is not [None]
    wins.  Otherwise a true clear flag leaves no entry; otherwise a group
    that had an entry reads [True] under a true enable flag, [False] under
    a true disable flag alone and its old status under neither, and a
    group that had no entry gets none. *)
Definition status_after (g s : dict) (fd fe fc : pyval) (k : string)
  : option pyval :=
  let bulk :=
    if truthy fc then None
    else if dict_mem g k then
      if truthy fe then Some (VBool true)
      else if truthy fd then Some (VBool false)
      else dict_get g k
    else None in
  match dict_get s k with
  | Some status => if is_None status then bulk else Some status
  | None => bulk
  end.

(** The top-level keys [apply_config] recognises. *)
Definition known_option (key : string) : bool :=
  String.eqb key "enabled" || String.eqb key "groups" || String.eqb key "mode".

(** The items of an options structure with a recognised key, and those
    without. *)
Definition known_items (items : dict) : dict :=
  List.filter (fun kv => known_option (fst kv)) items.

Definition unknown_items (items : dict) : dict :=
  List.filter (fun kv => negb (known_option (fst kv))) items.

(** The recognised entries of the shaped structure, as the modelled merge
    builds them from the defaults and the caller's items. *)
Definition shaped_known (items : dict) : dict :=
  [("enabled", match dict_get items "enabled" with Some u => u | None => VNone end);
   ("groups",
    match dict_get items "groups" with
    | Some u =>
        merge_dictionaries
          (shaped_groups [] (VBool false) (VBool false) (VBool false) VNone) u
    | None => shaped_groups [] (VBool false) (VBool false) (VBool false) VNone
    end);
   ("mode", match dict_get items "mode" with Some u => u | None => VNone end)].

(** The second half of the ['groups'] branch: the collected flags are run
    over the group table and the pending updates are merged. *)
Definition groups_commit (group_update : dict) (previous_update : list string)
  : M unit :=
  when (match previous_update with [] => false | _ :: _ => true end)
    (when (flag_in "d" previous_update) (groups_force false) >>
     when (flag_in "e" previous_update) (groups_force true) >>
     when (flag_in "c" previous_update) groups_clear) >>
  groups_update group_update.

(** Two states that differ at most in the ['default'] slot. *)
Definition same_but_default (gs gs' : GlobalSettingsObject) : Prop :=
  forall k, k <> "default" -> gs' !! k = gs !! k.

(** What every call of [apply_config] keeps: the ['groups'] slot holds a
    table with no entry for the reserved name, the ['mode'] slot holds a
    member of [ModeChoices], and the ['enabled'] slot is there. *)
Definition settings_ok (gs : GlobalSettingsObject) : Prop :=
  (exists g, gs !! "groups" = Some (VDict g) /\ dict_mem g "default" = false)
  /\ (exists m, gs !! "mode" = Some (VMode m))
  /\ is_Some (gs !! "enabled").

(** The letter [apply_config] records for a flag of the ['groups']
    structure. *)
Definition flag_letter (k : string) : option string :=
  if String.eqb k "disable_previous" then Some "d"
  else if String.eqb k "enable_previous" then Some "e"
  else if String.eqb k "clear_previous" then Some "c"
  else None.

(** The keys of a ['groups'] structure the loop accepts. *)
Definition known_group_option (k : string) : bool :=
  match flag_letter k with
  | Some _ => true
  | None => String.eqb k "default" || String.eqb k "set"
  end.

(** What the loop over a structure of flags leaves in [previous_update]. *)
Definition collected_flags (previous_update : list string) (items : dict)
  : list string :=
  fold_left
    (fun pu kv =>
       match flag_letter (fst kv) with
       | Some l => if truthy (snd kv) then (pu ++ [l])%list else pu
       | None => pu
       end)
    items previous_update.

(** Whether a structure gives flag [k] a true value. *)
Definition flag_given (items : dict) (k : string) : bool :=
  existsb (fun kv => String.eqb (fst kv) k && truthy (snd kv)) items.

(** [m in (ModeChoices.covariant, ModeChoices.bivariant)] and its mirror. *)
Definition covariant_member (m : ModeChoices) : bool :=
  match m with covariant | bivariant => true | _ => false end.

Definition contravariant_member (m : ModeChoices) : bool :=
  match m with contravariant | bivariant => true | _ => false end.

Definition is_flag (k : string) : bool :=
  match flag_letter k with Some _ => true | None => false end.

(** The group table after the bulk flags, given as booleans, in the order
    disable, enable, clear. *)
Definition table_after_flags (g : dict) (d e c : bool) : dict :=
  let g1 := if d then dict_set_all g (VBool false) else g in
  let g2 := if e then dict_set_all g1 (VBool true) else g1 in
  if c then [] else g2.

(** ** Running the monad *)

Section Running.
Implicit Types (gs : GlobalSettingsObject) (g s : dict).

Lemma getitem_Some gs k v : gs !! k = Some v -> getitem k gs = (Ok v, gs).
Proof. intros H. unfold getitem. by rewrite H. Qed.

Lemma getitem_None gs k : gs !! k = None -> getitem k gs = (Raise (KeyError k), gs).
Proof. intros H. unfold getitem. by rewrite H. Qed.

Lemma bind_Ok {A B} (c : M A) (k : A -> M B) gs a gs' :
  c gs = (Ok a, gs') -> bind c k gs = k a gs'.
Proof. intros H. unfold bind. by rewrite H. Qed.

Lemma bind_Raise {A B} (c : M A) (k : A -> M B) gs e gs' :
  c gs = (Raise e, gs') -> bind c k gs = (Raise e, gs').
Proof. intros H. unfold bind. by rewrite H. Qed.

Lemma for_each_app {A} (l1 l2 : list A) (body : A -> M unit) gs :
  for_each (l1 ++ l2)%list body gs =
  match for_each l1 body gs with
  | (Ok _, gs') => for_each l2 body gs'
  | (Raise e, gs') => (Raise e, gs')
  end.
Proof.
  revert gs. induction l1 as [|x tl IH]; intros gs; [done|].
  simpl. unfold bind. destruct (body x gs) as [[[]|e] gs1]; [apply IH|done].
Qed.

(** *** The group table *)

Lemma dict_get_set_eq g k v : dict_get (dict_set g k v) k = Some v.
Proof.
  induction g as [|[k' v'] tl IH]; simpl.
  - by rewrite String.eqb_refl.
  - destruct (String.eqb k' k) eqn:E; simpl.
    + by rewrite String.eqb_refl.
    + by rewrite E.
Qed.

Lemma dict_get_set_ne g k k' v :
  k <> k' -> dict_get (dict_set g k v) k' = dict_get g k'.
Proof.
  intros Hne. induction g as [|[k0 v0] tl IH]; simpl.
  - by apply String.eqb_neq in Hne as ->.
  - destruct (String.eqb k0 k) eqn:E; simpl.
    + apply String.eqb_eq in E as ->.
      by apply String.eqb_neq in Hne as ->.
    + by rewrite IH.
Qed.

Lemma dict_get_set_all g k v :
  dict_get (dict_set_all g v) k = if dict_mem g k then Some v else None.
Proof.
  unfold dict_mem. induction g as [|[k0 v0] tl IH]; simpl; [done|].
  by destruct (String.eqb k0 k).
Qed.

Lemma dict_mem_set d k v k' :
  dict_mem (dict_set d k v) k' = String.eqb k k' || dict_mem d k'.
Proof.
  unfold dict_mem. destruct (String.eqb k k') eqn:E.
  - apply String.eqb_eq in E as ->. by rewrite dict_get_set_eq.
  - apply String.eqb_neq in E. by rewrite dict_get_set_ne.
Qed.

Lemma dict_mem_set_all d v k : dict_mem (dict_set_all d v) k = dict_mem d k.
Proof.
  unfold dict_mem at 1. rewrite dict_get_set_all. by destruct (dict_mem d k).
Qed.

Lemma dict_mem_update d u k :
  dict_mem (dict_update d u) k = dict_mem d k || dict_mem u k.
Proof.
  unfold dict_update. revert d. induction u as [|[k0 v0] tl IH]; intros d.
  - simpl. by rewrite orb_false_r.
  - cbn [fold_left fst snd]. rewrite IH, dict_mem_set.
    unfold dict_mem. cbn [dict_get].
    by destruct (String.eqb k0 k), (dict_get d k), (dict_get tl k).
Qed.

Lemma dict_get_not_key (d : dict) k : k ∉ d.*1 -> dict_get d k = None.
Proof.
  induction d as [|[k0 v0] tl IH]; [done|]. cbn [fmap list_fmap fst dict_get].
  intros Hk. apply not_elem_of_cons in Hk as [Hne Hk].
  assert (String.eqb k0 k = false) as -> by (apply String.eqb_neq; congruence).
  by apply IH.
Qed.

Lemma dict_mem_false_not_key (d : dict) k : dict_mem d k = false -> k ∉ d.*1.
Proof.
  unfold dict_mem. induction d as [|[k0 v0] tl IH]; [intros _; apply not_elem_of_nil|].
  cbn [fmap list_fmap fst dict_get].
  destruct (String.eqb k0 k) eqn:E; [done|]. intros H.
  apply not_elem_of_cons. split; [|by apply IH].
  apply String.eqb_neq in E. congruence.
Qed.

Lemma dict_set_keys (d : dict) k v :
  (dict_set d k v).*1 = if dict_mem d k then d.*1 else (d.*1 ++ [k])%list.
Proof.
  unfold dict_mem. induction d as [|[k0 v0] tl IH]; [done|].
  cbn [dict_set dict_get]. destruct (String.eqb k0 k) eqn:E.
  - apply String.eqb_eq in E as ->. done.
  - cbn [fmap list_fmap fst] in *. rewrite IH.
    by destruct (dict_get tl k).
Qed.

Lemma dict_set_NoDup (d : dict) k v : NoDup d.*1 -> NoDup (dict_set d k v).*1.
Proof.
  intros Hd. rewrite dict_set_keys. destruct (dict_mem d k) eqn:E; [done|].
  apply NoDup_app. split; [done|]. split; [|apply NoDup_singleton].
  intros x Hx [->|[]%elem_of_nil]%elem_of_cons.
  by apply (dict_mem_false_not_key d k E).
Qed.

Lemma pending_updates_NoDup s acc :
  NoDup acc.*1 -> NoDup (pending_updates s acc).*1.
Proof.
  unfold pending_updates. revert acc.
  induction s as [|[k v] tl IH]; intros acc Hacc; [done|].
  cbn [fold_left fst snd]. apply IH.
  destruct (is_None v); [done|by apply dict_set_NoDup].
Qed.

Lemma pending_updates_get s acc k :
  NoDup s.*1 ->
  dict_get (pending_updates s acc) k =
  match dict_get s k with
  | Some status => if is_None status then dict_get acc k else Some status
  | None => dict_get acc k
  end.
Proof.
  unfold pending_updates. revert acc.
  induction s as [|[k0 v0] tl IH]; intros acc Hs; [done|].
  cbn [fmap list_fmap fst] in Hs. apply NoDup_cons in Hs as [Hk0 Hs].
  cbn [fold_left fst snd dict_get]. rewrite IH by done.
  destruct (String.eqb k0 k) eqn:E.
  - apply String.eqb_eq in E as ->. rewrite (dict_get_not_key tl k Hk0).
    destruct (is_None v0); [done|]. by rewrite dict_get_set_eq.
  - apply String.eqb_neq in E.
    destruct (is_None v0); [done|]. by rewrite dict_get_set_ne.
Qed.

Lemma dict_update_get g u k :
  NoDup u.*1 ->
  dict_get (dict_update g u) k =
  match dict_get u k with
  | Some v => Some v
  | None => dict_get g k
  end.
Proof.
  unfold dict_update. revert g.
  induction u as [|[k0 v0] tl IH]; intros g Hu; [done|].
  cbn [fmap list_fmap fst] in Hu. apply NoDup_cons in Hu as [Hk0 Hu].
  cbn [fold_left fst snd dict_get]. rewrite IH by done.
  destruct (String.eqb k0 k) eqn:E.
  - apply String.eqb_eq in E as ->. rewrite (dict_get_not_key tl k Hk0).
    by rewrite dict_get_set_eq.
  - apply String.eqb_neq in E. by rewrite dict_get_set_ne.
Qed.

Lemma for_fold_set_item s acc gs :
  dict_mem s "default" = false ->
  for_fold s set_item acc gs = (Ok (pending_updates s acc), gs).
Proof.
  revert acc. induction s as [|[k v] tl IH]; intros acc Hs; [done|].
  unfold dict_mem in Hs. simpl in Hs.
  destruct (String.eqb k "default") eqn:Hk; [done|].
  simpl. unfold bind, set_item. rewrite Hk.
  destruct (is_None v) eqn:Hv; simpl; rewrite IH;
    unfold pending_updates; simpl; rewrite ?Hv; done.
Qed.

Lemma groups_update_ok gs g gu :
  gs !! "groups" = Some (VDict g) ->
  groups_update gu gs = (Ok tt, <["groups" := VDict (dict_update g gu)]> gs).
Proof.
  intros H. unfold groups_update.
  by rewrite (bind_Ok _ _ _ _ _ (getitem_Some _ _ _ H)).
Qed.

Lemma groups_force_ok gs g b :
  gs !! "groups" = Some (VDict g) ->
  groups_force b gs =
  (Ok tt, <["groups" := VDict (dict_set_all g (VBool b))]> gs).
Proof.
  intros H. unfold groups_force.
  by rewrite (bind_Ok _ _ _ _ _ (getitem_Some _ _ _ H)).
Qed.

Lemma groups_clear_ok gs g :
  gs !! "groups" = Some (VDict g) ->
  groups_clear gs = (Ok tt, <["groups" := VDict []]> gs).
Proof.
  intros H. unfold groups_clear.
  by rewrite (bind_Ok _ _ _ _ _ (getitem_Some _ _ _ H)).
Qed.

Lemma lookup_groups_insert gs v : <["groups" := v]> gs !! "groups" = Some v.
Proof. apply lookup_insert_eq. Qed.

Lemma lookup_groups_other gs k g v :
  k <> "groups" ->
  gs !! "groups" = Some (VDict g) ->
  <[k := v]> gs !! "groups" = Some (VDict g).
Proof. intros Hk H. by rewrite lookup_insert_ne. Qed.

End Running.

(** Steps through the stores to the group table, wherever an earlier store
    left it. *)
Ltac groups_lookup :=
  first [ apply lookup_groups_insert
        | by apply lookup_groups_other
        | eassumption ].

Ltac groups_steps :=
  repeat first
    [ erewrite groups_force_ok by groups_lookup
    | erewrite groups_clear_ok by groups_lookup
    | erewrite groups_update_ok by groups_lookup
    | rewrite insert_insert_eq
    | progress (cbv beta iota) ].

Section Applying.
Implicit Types (gs : GlobalSettingsObject) (g s : dict).

(** The ['groups'] branch on a shaped structure: the pending updates are
    collected, ['default'] is stored at once, then the flags run in the
    order disable, enable, clear and the pending updates are merged. *)
Lemma apply_groups_shaped gs g s fd fe fc dv :
  gs !! "groups" = Some (VDict g) ->
  dict_mem s "default" = false ->
  apply_groups (shaped_groups s fd fe fc dv) gs =
  (Ok tt, <["groups" := VDict (groups_after g s fd fe fc)]>
            (if is_None dv then gs else <["default" := dv]> gs)).
Proof.
  intros Hg Hs. unfold apply_groups, shaped_groups, groups_after.
  simpl. unfold bind. cbv beta. rewrite for_fold_set_item by done. simpl.
  destruct (truthy fd), (truthy fe), (truthy fc), (is_None dv);
    simpl; unfold when, flag_in, setitem, ret; simpl; groups_steps; reflexivity.
Qed.

(** With no flag, no pending update and no default the branch stores the
    table it found. *)
Lemma apply_groups_default gs g :
  gs !! "groups" = Some (VDict g) ->
  apply_groups (shaped_groups [] (VBool false) (VBool false) (VBool false) VNone) gs
  = (Ok tt, gs).
Proof.
  intros Hg. rewrite (apply_groups_shaped gs g) by done.
  simpl. unfold groups_after. simpl. by rewrite insert_id.
Qed.

End Applying.

(** * The claims *)

(** ** The [Settings] view *)

Section Views.
Implicit Types (gs : GlobalSettingsObject) (g s : dict) (self : Settings).

(** C5: whenever [_GLOBAL_SETTINGS['enabled']] is false, reading [enabled]
    gives [False] on every [Settings] instance, whatever its group, its
    local override, and the rest of the global object; the truth value of
    the instance is [False] too, and the global object is left as it was. *)
Theorem enabled_kill_switch gs self e :
  gs !! "enabled" = Some e ->
  truthy e = false ->
  enabled self gs = (Ok (VBool false), gs)
  /\ Settings_bool self gs = (Ok (VBool false), gs).
Proof.
  intros He Ht.
  assert (enabled self gs = (Ok (VBool false), gs)) as Hen.
  { unfold enabled. rewrite (bind_Ok _ _ _ _ _ (getitem_Some _ _ _ He)).
    by rewrite Ht. }
  split; [done|]. unfold Settings_bool. by rewrite (bind_Ok _ _ _ _ _ Hen).
Qed.

Lemma enabled_kill_switch_witness :
  truthy (VBool false) = false /\
  enabled (Settings_init (VBool true) (Some "g"))
    (<["enabled" := VBool false]> (<["groups" := VDict [("g", VBool true)]]> _GLOBAL_SETTINGS))
  = (Ok (VBool false),
     <["enabled" := VBool false]> (<["groups" := VDict [("g", VBool true)]]> _GLOBAL_SETTINGS)).
Proof.
  split; [reflexivity|].
  apply (enabled_kill_switch _ _ (VBool false)); reflexivity.
Defined.

(** What [enabled] computes with no local override and a true global
    switch: the entry of the instance's group in the group table when there
    is one, and the constant [False] of the lookup otherwise. *)
Theorem enabled_without_override gs self e g :
  _enabled self = VNone ->
  gs !! "enabled" = Some e ->
  truthy e = true ->
  gs !! "groups" = Some (VDict g) ->
  enabled self gs =
  (Ok match dict_get g (group self) with
      | Some status => status
      | None => VBool false
      end, gs).
Proof.
  intros Hl He Ht Hg. unfold enabled.
  rewrite (bind_Ok _ _ _ _ _ (getitem_Some _ _ _ He)), Ht, Hl. simpl.
  by rewrite (bind_Ok _ _ _ _ _ (getitem_Some _ _ _ Hg)).
Qed.

Lemma enabled_without_override_witness :
  enabled (Settings_init VNone (Some "g"))
    (<["groups" := VDict [("g", VBool true)]]> _GLOBAL_SETTINGS)
  = (Ok (VBool true), <["groups" := VDict [("g", VBool true)]]> _GLOBAL_SETTINGS)
  /\ enabled (Settings_init VNone (Some "h"))
       (<["groups" := VDict [("g", VBool true)]]> _GLOBAL_SETTINGS)
     = (Ok (VBool false), <["groups" := VDict [("g", VBool true)]]> _GLOBAL_SETTINGS).
Proof.
  split.
  - apply (enabled_without_override _ (Settings_init VNone (Some "g")) (VBool true)
             [("g", VBool true)]); reflexivity.
  - apply (enabled_without_override _ (Settings_init VNone (Some "h")) (VBool true)
             [("g", VBool true)]); reflexivity.
Defined.

(** C1: the code misses the fallback.  The ['default'] slot is written by
    [GlobalSettingsObject.__init__], by [reset_config] and by the
    ['default'] option of [apply_config], whose own error message calls it
    the way to set the status of the group ['default'], the group every
    [Settings] built without a name is in; [enabled] never reads it.  On
    the initial global object, ['default'] being [True] and the group
    table empty, a fresh [Settings()] reads [False]. *)
Lemma enabled_misses_default :
  let self := Settings_init VNone None in
  group self = "default"
  /\ _enabled self = VNone
  /\ _GLOBAL_SETTINGS !! "enabled" = Some (VBool true)
  /\ _GLOBAL_SETTINGS !! "default" = Some (VBool true)
  /\ _GLOBAL_SETTINGS !! "groups" = Some (VDict [])
  /\ enabled self _GLOBAL_SETTINGS = (Ok (VBool false), _GLOBAL_SETTINGS).
Proof. repeat split. Qed.

(** So the reading in which a group without an entry falls back to the
    ['default'] slot is not what [enabled] does. *)
Lemma enabled_default_fallback_counterexample :
  ~ (forall gs self g dflt,
       _enabled self = VNone ->
       gs !! "enabled" = Some (VBool true) ->
       gs !! "groups" = Some (VDict g) ->
       gs !! "default" = Some dflt ->
       enabled self gs =
       (Ok match dict_get g (group self) with
           | Some status => status
           | None => dflt
           end, gs)).
Proof.
  intros H.
  specialize (H _GLOBAL_SETTINGS (Settings_init VNone None) [] (VBool true)
                eq_refl eq_refl eq_refl eq_refl).
  vm_compute in H. discriminate H.
Qed.

(** C10: two global objects that agree on every slot but ['default'] give
    the same result for every read of a [Settings] instance: [enabled],
    [mode], [covariant], [contravariant] and the truth value. *)
Theorem reads_ignore_default gs1 gs2 self :
  (forall k, k <> "default" -> gs1 !! k = gs2 !! k) ->
  fst (enabled self gs1) = fst (enabled self gs2)
  /\ fst (mode self gs1) = fst (mode self gs2)
  /\ fst (is_covariant self gs1) = fst (is_covariant self gs2)
  /\ fst (is_contravariant self gs1) = fst (is_contravariant self gs2)
  /\ fst (Settings_bool self gs1) = fst (Settings_bool self gs2).
Proof.
  intros H.
  assert (gs1 !! "enabled" = gs2 !! "enabled") as He by (by apply H).
  assert (gs1 !! "groups" = gs2 !! "groups") as Hg by (by apply H).
  assert (gs1 !! "mode" = gs2 !! "mode") as Hm by (by apply H).
  assert (fst (enabled self gs1) = fst (enabled self gs2)) as Hen.
  { unfold enabled, bind, getitem. rewrite He.
    destruct (gs2 !! "enabled") as [e|]; [|done]. simpl.
    destruct (negb (truthy e)); [done|].
    destruct (is_None (_enabled self)); [|done].
    rewrite Hg. destruct (gs2 !! "groups") as [[]|]; done. }
  repeat split.
  - done.
  - unfold mode, bind, getitem. rewrite Hm. by destruct (gs2 !! "mode").
  - unfold is_covariant, bind, getitem. rewrite Hm. by destruct (gs2 !! "mode").
  - unfold is_contravariant, bind, getitem. rewrite Hm. by destruct (gs2 !! "mode").
  - unfold Settings_bool, bind.
    destruct (enabled self gs1) as [[e1|x1] t1], (enabled self gs2) as [[e2|x2] t2];
      simpl in *; congruence.
Qed.

Lemma reads_ignore_default_witness :
  (forall k, k <> "default" ->
     _GLOBAL_SETTINGS !! k = <["default" := VBool false]> _GLOBAL_SETTINGS !! k) /\
  fst (enabled (Settings_init VNone None) _GLOBAL_SETTINGS)
  = fst (enabled (Settings_init VNone None) (<["default" := VBool false]> _GLOBAL_SETTINGS)).
Proof.
  assert (forall k, k <> "default" ->
     _GLOBAL_SETTINGS !! k = <["default" := VBool false]> _GLOBAL_SETTINGS !! k) as H.
  { intros k Hk. symmetry. by apply lookup_insert_ne. }
  split; [exact H|].
  apply (proj1 (reads_ignore_default _GLOBAL_SETTINGS
                  (<["default" := VBool false]> _GLOBAL_SETTINGS)
                  (Settings_init VNone None) H)).
Defined.
End Views.


(** ** [config] and [apply_config] *)

Section Configuring.
Implicit Types (gs : GlobalSettingsObject) (g s : dict) (self : Settings).

Lemma config_no_reset options gs :
  config options (VBool false) gs = apply_config (parse_config options) (VBool false) gs.
Proof. reflexivity. Qed.

Lemma apply_config_shaped gs en grp md :
  apply_config (shaped_options en grp md) (VBool false) gs =
  (when (negb (is_None en)) (setitem "enabled" en) >>
   apply_groups grp >>
   when (negb (is_None md)) (apply_mode md) >>
   ret tt) gs.
Proof. reflexivity. Qed.

(** Only the ['groups'] entry set: the other two keys are shaped to [None]
    and do nothing. *)
Lemma apply_config_groups_only gs g s fd fe fc :
  gs !! "groups" = Some (VDict g) ->
  dict_mem s "default" = false ->
  apply_config (shaped_options VNone (shaped_groups s fd fe fc VNone) VNone)
    (VBool false) gs
  = (Ok tt, <["groups" := VDict (groups_after g s fd fe fc)]> gs).
Proof.
  intros Hg Hs. rewrite apply_config_shaped. simpl.
  unfold bind at 1. unfold ret at 1.
  by rewrite (bind_Ok _ _ _ _ _ (apply_groups_shaped gs g s fd fe fc VNone Hg Hs)).
Qed.

Lemma filter_no_defaults s :
  List.filter (fun kv : string * pyval => negb (dict_mem [] (fst kv))) s = s.
Proof. induction s as [|kv tl IH]; simpl; [done|]. f_equal. exact IH. Qed.

(** Modelled merge: a ['groups'] structure that names ['set'] and the three
    flags is shaped by filling in the remaining keys. *)
Lemma parse_config_groups s fd fe fc :
  parse_config
    (VDict [("groups", VDict [("set", VDict s); ("disable_previous", fd);
                              ("enable_previous", fe); ("clear_previous", fc)])])
  = shaped_options VNone (shaped_groups s fd fe fc VNone) VNone.
Proof.
  unfold parse_config, shaped_options, shaped_groups. simpl.
  by rewrite filter_no_defaults.
Qed.

(** The table the ['groups'] branch stores, entry by entry. *)
Lemma groups_after_get g s fd fe fc k :
  NoDup s.*1 ->
  dict_get (groups_after g s fd fe fc) k = status_after g s fd fe fc k.
Proof.
  intros Hs. unfold groups_after, status_after.
  rewrite dict_update_get by (apply pending_updates_NoDup, NoDup_nil_2).
  rewrite pending_updates_get by done. cbn [dict_get].
  assert (dict_mem g k = false -> dict_get g k = None) as Hnone
    by (unfold dict_mem; by destruct (dict_get g k)).
  assert (dict_get
            (if truthy fc then []
             else if truthy fe
                  then dict_set_all
                         (if truthy fd then dict_set_all g (VBool false) else g)
                         (VBool true)
                  else if truthy fd then dict_set_all g (VBool false) else g) k
          = if truthy fc then None
            else if dict_mem g k then
              if truthy fe then Some (VBool true)
              else if truthy fd then Some (VBool false)
              else dict_get g k
            else None) as ->.
  { destruct (truthy fc); [done|].
    destruct (truthy fe), (truthy fd);
      rewrite ?dict_get_set_all, ?dict_mem_set_all;
      destruct (dict_mem g k) eqn:E; try done; by apply Hnone. }
  destruct (dict_get s k) as [status|]; [|done].
  by destruct (is_None status).
Qed.

(** C2: on a ['groups'] structure [config] first runs the bulk flags over
    the group table in the order disable-all, enable-all, clear, and merges
    the entries of ['set'] afterwards.  Entry by entry: a status given by
    ['set'] wins; otherwise clear leaves nothing, enable leaves [True] on
    every group that was there, also when disable is set with it, and
    disable alone leaves [False].  So
    [config({'groups': {'set': {'g': True}, 'disable_previous': True}})]
    leaves ['g'] at [True] and every other group that was there at [False],
    [config({'groups': {'clear_previous': True, 'enable_previous': True}})]
    leaves the table empty, and
    [config({'groups': {'disable_previous': True, 'enable_previous': True}})]
    leaves every group that was there at [True]. *)
Theorem groups_flags_then_set gs g :
  gs !! "groups" = Some (VDict g) ->
  (forall s fd fe fc,
     NoDup s.*1 ->
     dict_mem s "default" = false ->
     exists g',
       config
         (VDict [("groups", VDict [("set", VDict s); ("disable_previous", fd);
                                   ("enable_previous", fe); ("clear_previous", fc)])])
         (VBool false) gs
       = (Ok tt, <["groups" := VDict g']> gs)
       /\ forall k, dict_get g' k = status_after g s fd fe fc k)
  /\ (exists g',
        config
          (VDict [("groups", VDict [("set", VDict [("g", VBool true)]);
                                    ("disable_previous", VBool true)])])
          (VBool false) gs
        = (Ok tt, <["groups" := VDict g']> gs)
        /\ dict_get g' "g" = Some (VBool true)
        /\ forall k, k <> "g" -> dict_mem g k = true ->
                     dict_get g' k = Some (VBool false))
  /\ config
       (VDict [("groups", VDict [("clear_previous", VBool true);
                                 ("enable_previous", VBool true)])])
       (VBool false) gs
     = (Ok tt, <["groups" := VDict []]> gs)
  /\ (exists g',
        config
          (VDict [("groups", VDict [("disable_previous", VBool true);
                                    ("enable_previous", VBool true)])])
          (VBool false) gs
        = (Ok tt, <["groups" := VDict g']> gs)
        /\ forall k, dict_get g' k
                     = if dict_mem g k then Some (VBool true) else None).
Proof.
  intros Hg. split; [|split; [|split]].
  - intros s fd fe fc Hnd Hs. exists (groups_after g s fd fe fc). split.
    + rewrite config_no_reset.
      rewrite parse_config_groups. by apply apply_config_groups_only.
    + intros k. by apply groups_after_get.
  - exists (dict_set (dict_set_all g (VBool false)) "g" (VBool true)).
    split; [|split].
    + rewrite config_no_reset.
      change (parse_config _) with
        (shaped_options VNone
           (shaped_groups [("g", VBool true)] (VBool true) (VBool false) (VBool false) VNone)
           VNone).
      by rewrite (apply_config_groups_only gs g).
    + apply dict_get_set_eq.
    + intros k Hk Hin. rewrite dict_get_set_ne by done.
      by rewrite dict_get_set_all, Hin.
  - rewrite config_no_reset.
    change (parse_config _) with
      (shaped_options VNone
         (shaped_groups [] (VBool false) (VBool true) (VBool true) VNone) VNone).
    by rewrite (apply_config_groups_only gs g).
  - exists (groups_after g [] (VBool true) (VBool true) (VBool false)). split.
    + rewrite config_no_reset.
      change (parse_config _) with
        (shaped_options VNone
           (shaped_groups [] (VBool true) (VBool true) (VBool false) VNone) VNone).
      by rewrite (apply_config_groups_only gs g).
    + intros k. rewrite groups_after_get by apply NoDup_nil_2. done.
Qed.

Lemma groups_flags_then_set_witness :
  let gs := <["groups" := VDict [("a", VBool false); ("g", VBool false)]]> _GLOBAL_SETTINGS in
  gs !! "groups" = Some (VDict [("a", VBool false); ("g", VBool false)])
  /\ NoDup [("b", VBool false)].*1
  /\ (exists g',
        config
          (VDict [("groups", VDict [("set", VDict [("b", VBool false)]);
                                    ("disable_previous", VBool true);
                                    ("enable_previous", VBool true);
                                    ("clear_previous", VBool false)])])
          (VBool false) gs
        = (Ok tt, <["groups" := VDict g']> gs)
        /\ dict_get g' "a" = Some (VBool true)
        /\ dict_get g' "g" = Some (VBool true)
        /\ dict_get g' "b" = Some (VBool false)
        /\ dict_get g' "other" = None)
  /\ config
       (VDict [("groups", VDict [("clear_previous", VBool true);
                                 ("enable_previous", VBool true)])])
       (VBool false) gs
     = (Ok tt, <["groups" := VDict []]> gs).
Proof.
  intros gs.
  assert (NoDup [("b", VBool false)].*1) as Hnd by apply NoDup_singleton.
  split; [reflexivity|]. split; [exact Hnd|]. split.
  - destruct (proj1 (groups_flags_then_set gs
                       [("a", VBool false); ("g", VBool false)] eq_refl)
                [("b", VBool false)] (VBool true) (VBool true) (VBool false)
                Hnd eq_refl) as (g' & Hrun & Hget).
    exists g'. split; [exact Hrun|]. rewrite !Hget. repeat split.
  - apply (proj1 (proj2 (proj2 (groups_flags_then_set gs
                           [("a", VBool false); ("g", VBool false)] eq_refl)))).
Defined.

(** C4: for every boolean [b],
    [config({'groups': {'set': {'default': b}}})] raises the reserved-group
    error and leaves the whole global object, ['default'] and ['groups']
    included, as it was. *)
Theorem reserved_group_rejected gs (b : bool) :
  config (VDict [("groups", VDict [("set", VDict [("default", VBool b)])])])
    (VBool false) gs
  = (Raise (KeyError reserved_group_message), gs).
Proof. reflexivity. Qed.

(** C9: the reserved name is checked before the [None] filter:
    [config({'groups': {'set': {'default': None}}})] raises the
    reserved-group error, while a [None] status for any other group name is
    skipped and leaves the global object as it was. *)
Theorem reserved_check_before_None_filter gs g name :
  gs !! "groups" = Some (VDict g) ->
  name <> "default" ->
  config (VDict [("groups", VDict [("set", VDict [("default", VNone)])])])
    (VBool false) gs
  = (Raise (KeyError reserved_group_message), gs)
  /\ config (VDict [("groups", VDict [("set", VDict [(name, VNone)])])])
       (VBool false) gs
     = (Ok tt, gs).
Proof.
  intros Hg Hn. split; [reflexivity|].
  rewrite config_no_reset.
  change (parse_config _) with
    (shaped_options VNone
       (shaped_groups [(name, VNone)] (VBool false) (VBool false) (VBool false) VNone)
       VNone).
  rewrite (apply_config_groups_only gs g); [|done|].
  - unfold groups_after. simpl. by rewrite insert_id.
  - unfold dict_mem. simpl. by apply String.eqb_neq in Hn as ->.
Qed.

Lemma reserved_check_before_None_filter_witness :
  _GLOBAL_SETTINGS !! "groups" = Some (VDict [])
  /\ "g" <> "default"
  /\ config (VDict [("groups", VDict [("set", VDict [("default", VNone)])])])
       (VBool false) _GLOBAL_SETTINGS
     = (Raise (KeyError reserved_group_message), _GLOBAL_SETTINGS)
  /\ config (VDict [("groups", VDict [("set", VDict [("g", VNone)])])])
       (VBool false) _GLOBAL_SETTINGS
     = (Ok tt, _GLOBAL_SETTINGS).
Proof.
  assert ("g" <> "default") as Hne by discriminate.
  split; [reflexivity|]. split; [exact Hne|].
  apply (reserved_check_before_None_filter _GLOBAL_SETTINGS [] "g" eq_refl Hne).
Defined.

End Configuring.

(** ** The variance mode *)

Section Modes.
Implicit Types (gs : GlobalSettingsObject) (g s : dict) (self : Settings).

Lemma ModeChoices_by_name_name m :
  ModeChoices_by_name (ModeChoices_name m) = Some m.
Proof. by destruct m. Qed.

Lemma ModeChoices_by_name_other name :
  name <> "invariant" -> name <> "covariant" ->
  name <> "contravariant" -> name <> "bivariant" ->
  ModeChoices_by_name name = None.
Proof.
  intros H1 H2 H3 H4. unfold ModeChoices_by_name.
  apply String.eqb_neq in H1 as ->. apply String.eqb_neq in H2 as ->.
  apply String.eqb_neq in H3 as ->. by apply String.eqb_neq in H4 as ->.
Qed.

Lemma config_mode gs g name :
  gs !! "groups" = Some (VDict g) ->
  config (VDict [("mode", VStr name)]) (VBool false) gs =
  match ModeChoices_by_name name with
  | Some m => (Ok tt, <["mode" := VMode m]> gs)
  | None => (Raise (KeyError invalid_mode_message), gs)
  end.
Proof.
  intros Hg. rewrite config_no_reset.
  change (parse_config _) with
    (shaped_options VNone
       (shaped_groups [] (VBool false) (VBool false) (VBool false) VNone)
       (VStr name)).
  rewrite apply_config_shaped. simpl.
  unfold bind at 1. unfold ret at 1.
  rewrite (bind_Ok _ _ _ _ _ (apply_groups_default gs g Hg)).
  unfold bind, when, apply_mode. simpl.
  by destruct (ModeChoices_by_name name).
Qed.

(** C6: for a string that is none of ['invariant'], ['covariant'],
    ['contravariant'], ['bivariant'], [config({'mode': s})] raises the
    invalid-mode error and leaves the global object, its mode included, as
    it was; for the name of a member that member is stored as the mode. *)
Theorem mode_by_name_or_rejected gs g :
  gs !! "groups" = Some (VDict g) ->
  (forall name,
     name <> "invariant" -> name <> "covariant" ->
     name <> "contravariant" -> name <> "bivariant" ->
     config (VDict [("mode", VStr name)]) (VBool false) gs
     = (Raise (KeyError invalid_mode_message), gs))
  /\ (forall m,
        config (VDict [("mode", VStr (ModeChoices_name m))]) (VBool false) gs
        = (Ok tt, <["mode" := VMode m]> gs)).
Proof.
  intros Hg. split.
  - intros name H1 H2 H3 H4. rewrite (config_mode gs g) by done.
    by rewrite ModeChoices_by_name_other.
  - intros m. rewrite (config_mode gs g) by done.
    by rewrite ModeChoices_by_name_name.
Qed.

Lemma mode_by_name_or_rejected_witness :
  _GLOBAL_SETTINGS !! "groups" = Some (VDict []) /\
  config (VDict [("mode", VStr "strict")]) (VBool false) _GLOBAL_SETTINGS
  = (Raise (KeyError invalid_mode_message), _GLOBAL_SETTINGS) /\
  config (VDict [("mode", VStr "covariant")]) (VBool false) _GLOBAL_SETTINGS
  = (Ok tt, <["mode" := VMode covariant]> _GLOBAL_SETTINGS).
Proof.
  split; [reflexivity|]. split.
  - apply (proj1 (mode_by_name_or_rejected _GLOBAL_SETTINGS [] eq_refl) "strict");
      discriminate.
  - apply (proj2 (mode_by_name_or_rejected _GLOBAL_SETTINGS [] eq_refl) covariant).
Defined.
End Modes.

(** ** Local overrides *)

Section Overrides.
Implicit Types (gs : GlobalSettingsObject) (g s : dict) (self : Settings).

(** C8: writing [enabled] on a [Settings] instance sets that instance's
    local override and leaves the global object as it was; with a true
    global switch an instance that has a local override reads it back
    whatever the group table says.  After
    [s = Settings(enabled=False, group='g')] and
    [config({'groups': {'set': {'g': True}}})], [s.enabled] is [False] and
    a fresh [Settings(group='g').enabled] is [True]. *)
Theorem local_override_is_local gs g e :
  gs !! "enabled" = Some e ->
  truthy e = true ->
  gs !! "groups" = Some (VDict g) ->
  (forall self value,
     set_enabled self value gs
     = (Ok {| group := group self; _enabled := value |}, gs))
  /\ (forall self, is_None (_enabled self) = false ->
        enabled self gs = (Ok (_enabled self), gs))
  /\ (let s := Settings_init (VBool false) (Some "g") in
      exists gs',
        config (VDict [("groups", VDict [("set", VDict [("g", VBool true)])])])
          (VBool false) gs = (Ok tt, gs')
        /\ enabled s gs' = (Ok (VBool false), gs')
        /\ enabled (Settings_init VNone (Some "g")) gs' = (Ok (VBool true), gs')).
Proof.
  intros He Ht Hg. split; [done|]. split.
  - intros self Hl. unfold enabled.
    rewrite (bind_Ok _ _ _ _ _ (getitem_Some _ _ _ He)), Ht, Hl. done.
  - simpl. exists (<["groups" := VDict (dict_set g "g" (VBool true))]> gs).
    assert (<["groups" := VDict (dict_set g "g" (VBool true))]> gs !! "enabled"
            = Some e) as He' by (by rewrite lookup_insert_ne).
    split; [|split].
    + rewrite config_no_reset.
      change (parse_config _) with
        (shaped_options VNone
           (shaped_groups [("g", VBool true)] (VBool false) (VBool false) (VBool false) VNone)
           VNone).
      by rewrite (apply_config_groups_only gs g).
    + unfold enabled.
      rewrite (bind_Ok _ _ _ _ _ (getitem_Some _ _ _ He')), Ht. done.
    + unfold enabled.
      rewrite (bind_Ok _ _ _ _ _ (getitem_Some _ _ _ He')), Ht. simpl.
      rewrite (bind_Ok _ _ _ _ _ (getitem_Some _ _ _ (lookup_groups_insert _ _))).
      unfold dict_get_default. by rewrite dict_get_set_eq.
Qed.
Lemma local_override_is_local_witness :
  _GLOBAL_SETTINGS !! "enabled" = Some (VBool true)
  /\ truthy (VBool true) = true
  /\ _GLOBAL_SETTINGS !! "groups" = Some (VDict [])
  /\ set_enabled (Settings_init VNone (Some "g")) (VBool false) _GLOBAL_SETTINGS
     = (Ok (Settings_init (VBool false) (Some "g")), _GLOBAL_SETTINGS)
  /\ enabled (Settings_init (VBool false) (Some "g")) _GLOBAL_SETTINGS
     = (Ok (VBool false), _GLOBAL_SETTINGS).
Proof.
  split; [reflexivity|]. split; [reflexivity|]. split; [reflexivity|].
  pose proof (local_override_is_local _GLOBAL_SETTINGS [] (VBool true)
                eq_refl eq_refl eq_refl) as [Hset [Hget _]].
  split.
  - apply (Hset (Settings_init VNone (Some "g")) (VBool false)).
  - apply (Hget (Settings_init (VBool false) (Some "g"))). reflexivity.
Defined.

End Overrides.

(** ** [config(reset=True)] *)

Section Resetting.
Implicit Types (gs : GlobalSettingsObject) (g s : dict) (self : Settings).

Lemma lookup_delete_all (l : list string) gs k :
  fold_left (fun m key => delete key m) l gs !! k =
  if decide (k ∈ l) then None else gs !! k.
Proof.
  revert gs. induction l as [|x tl IH]; intros gs; cbn [fold_left].
  - destruct (decide (k ∈ [])) as [H|_]; [by apply elem_of_nil in H|done].
  - rewrite IH. destruct (decide (k = x)) as [->|Hne].
    + rewrite lookup_delete_eq.
      rewrite (decide_True (P := x ∈ x :: tl)) by apply list_elem_of_here.
      by case_decide.
    + rewrite lookup_delete_ne by done.
      destruct (decide (k ∈ tl)) as [Hin|Hnin].
      * by rewrite decide_True by (by apply list_elem_of_further).
      * rewrite decide_False; [done|].
        intros [?|?]%elem_of_cons; done.
Qed.

Lemma for_each_delitem (l : list string) gs :
  NoDup l ->
  (forall k, k ∈ l -> is_Some (gs !! k)) ->
  for_each l delitem gs = (Ok tt, fold_left (fun m key => delete key m) l gs).
Proof.
  revert gs. induction l as [|x tl IH]; intros gs Hnd Hin; [done|].
  apply NoDup_cons in Hnd as [Hx Hnd].
  destruct (Hin x (list_elem_of_here _ _)) as [v Hv].
  simpl. unfold bind, delitem at 1. rewrite Hv. apply IH; [done|].
  intros k Hk. rewrite lookup_delete_ne; [|intros ->; done].
  apply Hin. by apply list_elem_of_further.
Qed.

(** The keys [reset_config] collects for removal: those present in the
    global object and absent from [default_values]. *)
Lemma keys_to_remove_spec gs k :
  k ∈ filter (fun key => dict_mem default_values key = false) (map_to_list gs).*1
  <-> dict_mem default_values k = false /\ is_Some (gs !! k).
Proof.
  rewrite list_elem_of_filter. apply and_iff_compat_l.
  rewrite list_elem_of_fmap. split.
  - intros [[k' v] [-> Hkv]]. apply elem_of_map_to_list in Hkv. by exists v.
  - intros [v Hv]. exists (k, v). split; [done|]. by apply elem_of_map_to_list.
Qed.

Lemma dict_mem_default_values k :
  "enabled" <> k -> "default" <> k -> "mode" <> k -> "groups" <> k ->
  dict_mem default_values k = false.
Proof.
  intros H1 H2 H3 H4. unfold dict_mem, default_values. cbn [dict_get].
  apply String.eqb_neq in H1 as ->. apply String.eqb_neq in H2 as ->.
  apply String.eqb_neq in H3 as ->. by apply String.eqb_neq in H4 as ->.
Qed.

Lemma reset_config_restores gs g :
  gs !! "groups" = Some (VDict g) ->
  reset_config gs = (Ok tt, GlobalSettingsObject_init).
Proof.
  intros Hg. unfold reset_config, iter_keys. unfold bind at 1.
  set (rm := filter _ _).
  assert (for_each rm delitem gs
          = (Ok tt, fold_left (fun m key => delete key m) rm gs)) as Hrm.
  { apply for_each_delitem.
    - apply NoDup_filter, NoDup_fst_map_to_list.
    - intros k Hk. by apply keys_to_remove_spec in Hk as [_ ?]. }
  rewrite (bind_Ok _ _ _ _ _ Hrm).
  set (gs1 := fold_left _ rm gs).
  assert (forall k, gs1 !! k = if dict_mem default_values k then gs !! k else None)
    as Hgs1.
  { intros k. unfold gs1. rewrite lookup_delete_all. unfold rm.
    destruct (dict_mem default_values k) eqn:Hk.
    - rewrite decide_False; [done|].
      intros [? _]%keys_to_remove_spec. congruence.
    - case_decide as Hin; [done|].
      destruct (gs !! k) eqn:Hv; [|done].
      exfalso. apply Hin, keys_to_remove_spec. by rewrite Hv. }
  simpl. unfold bind, setitem, ret. cbv beta iota.
  erewrite groups_clear_ok.
  2:{ rewrite !lookup_insert_ne by done. rewrite Hgs1. simpl. exact Hg. }
  f_equal. apply map_eq. intros k. unfold GlobalSettingsObject_init.
  rewrite !lookup_insert. repeat case_decide; try done.
  rewrite Hgs1, lookup_empty. by rewrite dict_mem_default_values.
Qed.

(** C3: on a global object whose ['groups'] slot holds a table, whatever
    else it holds, [config(options, reset=True)] succeeds for every
    [options] and leaves exactly [enabled: True], [default: True],
    [mode: invariant], [groups: {}]: every other key is gone, the options
    are not looked at, and a second reset gives the same object again. *)
Theorem reset_restores_defaults gs g options :
  gs !! "groups" = Some (VDict g) ->
  config options (VBool true) gs = (Ok tt, GlobalSettingsObject_init)
  /\ GlobalSettingsObject_init =
       {[ "enabled" := VBool true; "default" := VBool true;
          "mode" := VMode invariant; "groups" := VDict [] ]}
  /\ (forall k, k <> "enabled" -> k <> "default" -> k <> "mode" -> k <> "groups" ->
        snd (config options (VBool true) gs) !! k = None)
  /\ config options (VBool true) (snd (config options (VBool true) gs))
     = (Ok tt, snd (config options (VBool true) gs)).
Proof.
  intros Hg.
  assert (forall gs' g', gs' !! "groups" = Some (VDict g') ->
            config options (VBool true) gs' = (Ok tt, GlobalSettingsObject_init)) as H.
  { intros gs' g' Hg'. unfold config, apply_config. simpl.
    by apply (reset_config_restores gs' g'). }
  rewrite (H gs g Hg). split; [done|]. split; [|split].
  - by vm_compute.
  - intros k H1 H2 H3 H4. simpl. unfold GlobalSettingsObject_init.
    rewrite !lookup_insert_ne by done. apply lookup_empty.
  - simpl. by apply (H _ []).
Qed.
Lemma reset_restores_defaults_witness :
  let gs := <["extra" := VInt 7]>
              (<["enabled" := VBool false]>
                 (<["groups" := VDict [("g", VBool true)]]> _GLOBAL_SETTINGS)) in
  gs !! "groups" = Some (VDict [("g", VBool true)])
  /\ config (VDict [("bogus", VInt 1)]) (VBool true) gs
     = (Ok tt, GlobalSettingsObject_init).
Proof.
  intros gs. split; [reflexivity|].
  apply (proj1 (reset_restores_defaults gs [("g", VBool true)]
                  (VDict [("bogus", VInt 1)]) eq_refl)).
Defined.

End Resetting.

(** ** Unknown options *)

Section Unknown.
Implicit Types (gs : GlobalSettingsObject) (g s items : dict) (self : Settings).

Lemma known_option_false key :
  known_option key = false ->
  String.eqb key "enabled" = false /\ String.eqb key "groups" = false
  /\ String.eqb key "mode" = false.
Proof.
  unfold known_option. intros H.
  apply orb_false_iff in H as [H H3]. apply orb_false_iff in H as [H1 H2]. done.
Qed.

Lemma dict_get_In items key value :
  dict_get items key = Some value -> In (key, value) items.
Proof.
  induction items as [|[k v] tl IH]; [done|]. cbn [dict_get].
  destruct (String.eqb k key) eqn:E.
  - apply String.eqb_eq in E as ->. intros [= ->]. by left.
  - intros H. right. by apply IH.
Qed.

Lemma dict_get_filter (f : string * pyval -> bool) items key :
  (forall v, f (key, v) = true) ->
  dict_get (List.filter f items) key = dict_get items key.
Proof.
  intros Hf. induction items as [|[k v] tl IH]; [done|]. cbn [List.filter dict_get].
  destruct (f (k, v)) eqn:Hkv; cbn [dict_get].
  - by rewrite IH.
  - destruct (String.eqb k key) eqn:E; [|done].
    apply String.eqb_eq in E as ->. by rewrite Hf in Hkv.
Qed.

Lemma filter_filter_none (f : string * pyval -> bool) items :
  List.filter (fun kv => negb (f kv)) (List.filter f items) = [].
Proof.
  induction items as [|kv tl IH]; [done|]. cbn [List.filter].
  destruct (f kv) eqn:E; [|done]. cbn [List.filter]. by rewrite E.
Qed.

Lemma apply_option_unknown key value gs :
  known_option key = false ->
  apply_option (key, value) gs = (Raise (KeyError (unknown_option_message key)), gs).
Proof.
  intros (H1 & H2 & H3)%known_option_false. unfold apply_option.
  by rewrite H1, H2, H3.
Qed.

Lemma dict_mem_option_keys (v1 v2 v3 : pyval) key :
  dict_mem [("enabled", v1); ("groups", v2); ("mode", v3)] key = known_option key.
Proof.
  unfold dict_mem, known_option. cbn [dict_get].
  rewrite (String.eqb_sym key "enabled"), (String.eqb_sym key "groups"),
    (String.eqb_sym key "mode").
  destruct (String.eqb "enabled" key); [done|].
  destruct (String.eqb "groups" key); [done|].
  by destruct (String.eqb "mode" key).
Qed.

Lemma parse_config_items items :
  parse_config (VDict items) = VDict (shaped_known items ++ unknown_items items)%list.
Proof.
  transitivity
    (VDict
       (shaped_known items ++
        List.filter
          (fun kv =>
             negb (dict_mem
                     [("enabled", VNone);
                      ("groups",
                       shaped_groups [] (VBool false) (VBool false) (VBool false) VNone);
                      ("mode", VNone)] (fst kv)))
          items)%list); [reflexivity|].
  f_equal. f_equal. apply List.filter_ext. intros [k v]. cbn [fst].
  by rewrite dict_mem_option_keys.
Qed.

Lemma dict_get_known_items items key :
  known_option key = true ->
  dict_get (known_items items) key = dict_get items key.
Proof. intros Hk. apply dict_get_filter. intros v. exact Hk. Qed.

Lemma parse_config_known_items items :
  parse_config (VDict (known_items items)) = VDict (shaped_known items).
Proof.
  rewrite parse_config_items. unfold shaped_known.
  rewrite !dict_get_known_items by done.
  unfold unknown_items, known_items.
  rewrite (filter_filter_none (fun kv => known_option (fst kv))).
  by rewrite app_nil_r.
Qed.

Lemma config_items items gs :
  config (VDict items) (VBool false) gs =
  match for_each (shaped_known items) apply_option gs with
  | (Ok _, gs') => for_each (unknown_items items) apply_option gs'
  | (Raise e, gs') => (Raise e, gs')
  end.
Proof.
  rewrite config_no_reset, parse_config_items. unfold apply_config.
  cbn [truthy is_None]. apply for_each_app.
Qed.

Lemma unknown_items_In items key value :
  dict_get items key = Some value ->
  known_option key = false ->
  In (key, value) (unknown_items items).
Proof.
  intros Hget Hk. apply filter_In. split; [by apply dict_get_In|].
  cbn [fst]. by rewrite Hk.
Qed.

Lemma unknown_items_head items key0 value0 rest :
  unknown_items items = (key0, value0) :: rest -> known_option key0 = false.
Proof.
  intros H.
  assert (In (key0, value0) (unknown_items items)) as Hin by (rewrite H; by left).
  apply filter_In in Hin as [_ Hin]. cbn [fst] in Hin.
  by apply negb_true_iff in Hin.
Qed.

End Unknown.

Section Rejecting.
Implicit Types (gs : GlobalSettingsObject) (g s items : dict) (self : Settings).

(** C7, as the code has it: an options structure with a top-level key
    outside [enabled], [mode] and [groups] keeps that key through the parse
    step and the call always raises.  The recognised keys are applied
    first: when the same call without the unknown keys returns, the error
    is the unknown-option error for the first unknown key, raised in the
    state that call leaves; when it raises, the call raises that same error
    in that same state.  [config({'bogus': v})] raises the unknown-option
    error for ['bogus'] and leaves the global object as it was. *)
Theorem unknown_option_rejected items gs key value :
  dict_get items key = Some value ->
  known_option key = false ->
  (exists shaped,
     parse_config (VDict items) = VDict shaped
     /\ dict_get shaped key = Some value)
  /\ (exists e gs', config (VDict items) (VBool false) gs = (Raise e, gs'))
  /\ (exists key0 value0 rest,
        unknown_items items = (key0, value0) :: rest
        /\ forall gs',
             config (VDict (known_items items)) (VBool false) gs = (Ok tt, gs') ->
             config (VDict items) (VBool false) gs
             = (Raise (KeyError (unknown_option_message key0)), gs'))
  /\ (forall e gs',
        config (VDict (known_items items)) (VBool false) gs = (Raise e, gs') ->
        config (VDict items) (VBool false) gs = (Raise e, gs'))
  /\ (forall g v,
        gs !! "groups" = Some (VDict g) ->
        config (VDict [("bogus", v)]) (VBool false) gs
        = (Raise (KeyError "Unknown option 'bogus'"), gs)).
Proof.
  intros Hget Hk.
  pose proof (unknown_items_In items key value Hget Hk) as Hin.
  destruct (unknown_items items) as [|[key0 value0] rest] eqn:Hu; [done|].
  pose proof (unknown_items_head items key0 value0 rest Hu) as Hk0.
  split; [|split; [|split; [|split]]].
  - exists (shaped_known items ++ unknown_items items)%list.
    split; [apply parse_config_items|].
    destruct (known_option_false key Hk) as (H1 & H2 & H3).
    rewrite String.eqb_sym in H1. rewrite String.eqb_sym in H2.
    rewrite String.eqb_sym in H3.
    unfold shaped_known. cbn [app dict_get]. rewrite H1, H2, H3.
    unfold unknown_items. rewrite dict_get_filter; [done|].
    intros v. cbn [fst]. by rewrite Hk.
  - rewrite config_items, Hu.
    destruct (for_each (shaped_known items) apply_option gs) as [[[]|e] gs1].
    + exists (KeyError (unknown_option_message key0)), gs1.
      cbn [for_each]. by rewrite (bind_Raise _ _ _ _ _ (apply_option_unknown _ _ _ Hk0)).
    + by exists e, gs1.
  - exists key0, value0, rest. split; [done|]. intros gs' Hok.
    rewrite config_no_reset, parse_config_known_items in Hok.
    unfold apply_config in Hok. cbn [truthy is_None] in Hok.
    rewrite config_items, Hok, Hu. cbn [for_each].
    by rewrite (bind_Raise _ _ _ _ _ (apply_option_unknown _ _ _ Hk0)).
  - intros e gs' Hraise.
    rewrite config_no_reset, parse_config_known_items in Hraise.
    unfold apply_config in Hraise. cbn [truthy is_None] in Hraise.
    by rewrite config_items, Hraise.
  - intros g v Hg. rewrite config_no_reset.
    change (parse_config _) with
      (VDict [("enabled", VNone);
              ("groups", shaped_groups [] (VBool false) (VBool false) (VBool false) VNone);
              ("mode", VNone); ("bogus", v)]).
    unfold apply_config. cbn [truthy is_None for_each].
    unfold bind at 1. cbn [apply_option String.eqb Ascii.eqb Bool.eqb when negb is_None].
    unfold ret at 1. cbv beta iota.
    unfold bind at 1.
    change (apply_option ("groups", ?x)) with (apply_groups x).
    rewrite (apply_groups_default gs g Hg).
    reflexivity.
Qed.

Lemma unknown_option_rejected_witness :
  dict_get [("bogus", VInt 1)] "bogus" = Some (VInt 1)
  /\ known_option "bogus" = false
  /\ config (VDict [("bogus", VInt 1)]) (VBool false) _GLOBAL_SETTINGS
     = (Raise (KeyError "Unknown option 'bogus'"), _GLOBAL_SETTINGS)
  /\ config (VDict [("mode", VStr "nope"); ("bogus", VInt 1)]) (VBool false)
       _GLOBAL_SETTINGS
     = (Raise (KeyError invalid_mode_message), _GLOBAL_SETTINGS).
Proof.
  split; [reflexivity|]. split; [reflexivity|]. split.
  - apply (proj2 (proj2 (proj2 (proj2
             (unknown_option_rejected [("bogus", VInt 1)] _GLOBAL_SETTINGS
                "bogus" (VInt 1) eq_refl eq_refl)))) [] (VInt 1)).
    reflexivity.
  - apply (proj1 (proj2 (proj2 (proj2
             (unknown_option_rejected [("mode", VStr "nope"); ("bogus", VInt 1)]
                _GLOBAL_SETTINGS "bogus" (VInt 1) eq_refl eq_refl))))
             (KeyError invalid_mode_message) _GLOBAL_SETTINGS).
    reflexivity.
Defined.

(** C7 as stated fails: with an invalid mode next to the unknown key, the
    mode is looked at first and the invalid-mode error is raised, not the
    unknown-option error. *)
Lemma unknown_option_error_counterexample :
  ~ (forall items gs key value,
       dict_get items key = Some value ->
       known_option key = false ->
       exists key',
         fst (config (VDict items) (VBool false) gs)
         = Raise (KeyError (unknown_option_message key'))).
Proof.
  intros H.
  destruct (H [("mode", VStr "nope"); ("bogus", VInt 1)] _GLOBAL_SETTINGS
              "bogus" (VInt 1) eq_refl eq_refl) as [key' Hk].
  vm_compute in Hk. discriminate Hk.
Qed.
End Rejecting.

(** * Further properties *)

(** ** The ['groups'] branch, on any structure *)

Section Groups.
Implicit Types (gs : GlobalSettingsObject) (g s items : dict).

Lemma apply_groups_commit items gs :
  apply_groups (VDict items) gs =
  (let* acc := for_fold items (groups_item items) ([], []) in
   groups_commit (fst acc) (snd acc)) gs.
Proof.
  unfold apply_groups, bind.
  by destruct (for_fold items (groups_item items) ([], []) gs) as [[[gu pu]|e] gs1].
Qed.

Lemma same_but_default_refl gs : same_but_default gs gs.
Proof. by intros k _. Qed.

Lemma same_but_default_trans gs1 gs2 gs3 :
  same_but_default gs1 gs2 -> same_but_default gs2 gs3 -> same_but_default gs1 gs3.
Proof. intros H1 H2 k Hk. by rewrite H2, H1. Qed.

Lemma same_but_default_store gs d : same_but_default gs (<["default" := d]> gs).
Proof. intros k Hk. by rewrite lookup_insert_ne. Qed.

(** The loop over ['set'] never writes the global object, and what it
    collects never names the reserved group. *)
Lemma for_fold_set_item_run s acc gs :
  dict_mem acc "default" = false ->
  (exists acc', for_fold s set_item acc gs = (Ok acc', gs)
                /\ dict_mem acc' "default" = false)
  \/ for_fold s set_item acc gs = (Raise (KeyError reserved_group_message), gs).
Proof.
  revert acc. induction s as [|[k v] tl IH]; intros acc Hacc.
  - left. by exists acc.
  - cbn [for_fold]. unfold bind, set_item.
    destruct (String.eqb k "default") eqn:Hk; [by right|].
    destruct (is_None v); [by apply IH|].
    apply IH. by rewrite dict_mem_set, Hk.
Qed.

(** One turn of the loop over the ['groups'] structure writes at most the
    ['default'] slot. *)
Lemma groups_item_run value acc kv gs :
  dict_mem (fst acc) "default" = false ->
  exists r gs',
    groups_item value acc kv gs = (r, gs')
    /\ same_but_default gs gs'
    /\ match r with
       | Ok acc' => dict_mem (fst acc') "default" = false
       | Raise _ => True
       end.
Proof.
  destruct acc as [gu pu], kv as [k v]. cbn [fst]. intros Hgu.
  unfold groups_item.
  destruct (String.eqb k "disable_previous");
    [eexists _, _; split; [reflexivity|]; split; [apply same_but_default_refl|done]|].
  destruct (String.eqb k "enable_previous");
    [eexists _, _; split; [reflexivity|]; split; [apply same_but_default_refl|done]|].
  destruct (String.eqb k "clear_previous");
    [eexists _, _; split; [reflexivity|]; split; [apply same_but_default_refl|done]|].
  destruct (String.eqb k "default").
  { destruct (is_None v);
      [eexists _, _; split; [reflexivity|]; split; [apply same_but_default_refl|done]|].
    destruct (dict_get value "default") as [d|].
    - eexists _, _. split; [reflexivity|]. split; [apply same_but_default_store|done].
    - eexists _, _. split; [reflexivity|]. split; [apply same_but_default_refl|done]. }
  destruct (String.eqb k "set").
  { destruct v as [| | | | |s];
      try (eexists _, _; split; [reflexivity|]; split; [apply same_but_default_refl|done]).
    unfold bind.
    destruct (for_fold_set_item_run s gu gs Hgu) as [(acc' & -> & Hacc')| ->].
    - eexists _, _. split; [reflexivity|]. split; [apply same_but_default_refl|done].
    - eexists _, _. split; [reflexivity|]. split; [apply same_but_default_refl|done]. }
  eexists _, _. split; [reflexivity|]. split; [apply same_but_default_refl|done].
Qed.

Lemma for_fold_groups_item_run value items acc gs :
  dict_mem (fst acc) "default" = false ->
  exists r gs',
    for_fold items (groups_item value) acc gs = (r, gs')
    /\ same_but_default gs gs'
    /\ match r with
       | Ok acc' => dict_mem (fst acc') "default" = false
       | Raise _ => True
       end.
Proof.
  revert acc gs. induction items as [|kv tl IH]; intros acc gs Hacc.
  - eexists _, _. split; [reflexivity|]. split; [apply same_but_default_refl|done].
  - cbn [for_fold]. unfold bind.
    destruct (groups_item_run value acc kv gs Hacc) as (r & gs1 & -> & Hsame & Hr).
    destruct r as [acc1|e].
    + destruct (IH acc1 gs1 Hr) as (r2 & gs2 & -> & Hsame2 & Hr2).
      eexists _, _. split; [reflexivity|]. split; [|done].
      by eapply same_but_default_trans.
    + eexists _, _. split; [reflexivity|]. by split.
Qed.

(** On a table the second half always succeeds and stores a table. *)
Lemma groups_commit_table gu pu gs g :
  gs !! "groups" = Some (VDict g) ->
  exists g',
    groups_commit gu pu gs = (Ok tt, <["groups" := VDict g']> gs)
    /\ forall k, dict_mem g' k = true -> dict_mem g k = true \/ dict_mem gu k = true.
Proof.
  intros Hg. unfold groups_commit.
  destruct pu as [|p pu'].
  - exists (dict_update g gu). split.
    + unfold when, bind, ret. by groups_steps.
    + intros k. rewrite dict_mem_update. by intros [?|?]%orb_true_iff; [left|right].
  - set (pu := p :: pu').
    destruct (flag_in "d" pu), (flag_in "e" pu), (flag_in "c" pu);
      unfold when, bind, ret; groups_steps;
      eexists; (split; [reflexivity|]);
      intros k; rewrite dict_mem_update, ?dict_mem_set_all;
      intros [?|?]%orb_true_iff; auto; done.
Qed.

(** Off a table the second half fails or does nothing, and writes nothing. *)
Lemma groups_commit_no_table gu pu gs :
  (forall g, gs !! "groups" <> Some (VDict g)) ->
  exists e, groups_commit gu pu gs = (Raise e, gs).
Proof.
  intros Hg.
  assert (exists e, groups_update gu gs = (Raise e, gs)) as [eu Hu].
  { unfold groups_update, bind, getitem.
    destruct (gs !! "groups") as [[]|] eqn:E; try by eexists.
    by destruct (Hg items). }
  assert (exists e, groups_clear gs = (Raise e, gs)) as [ec Hc].
  { unfold groups_clear, bind, getitem.
    destruct (gs !! "groups") as [[]|] eqn:E; try by eexists.
    by destruct (Hg items). }
  assert (forall b, groups_force b gs = (Ok tt, gs)
                    \/ exists e, groups_force b gs = (Raise e, gs)) as Hf.
  { intros b. unfold groups_force, bind, getitem.
    destruct (gs !! "groups") as [[| | |[|]| |]|] eqn:E;
      try (by left); try (right; by eexists).
    by destruct (Hg items). }
  unfold groups_commit.
  destruct pu as [|p pu']; [unfold when, bind, ret; rewrite Hu; by eexists|].
  set (pu := p :: pu'). unfold when at 1. cbn [pu]. unfold bind at 1.
  destruct (flag_in "d" pu).
  - unfold bind at 1. unfold when at 1.
    destruct (Hf false) as [->|[e ->]]; [|by eexists].
    unfold bind at 1. unfold when at 1.
    destruct (flag_in "e" pu).
    + destruct (Hf true) as [->|[e ->]]; [|by eexists].
      unfold when. destruct (flag_in "c" pu).
      * rewrite Hc. by eexists.
      * unfold ret. rewrite Hu. by eexists.
    + unfold ret at 1. unfold when. destruct (flag_in "c" pu).
      * rewrite Hc. by eexists.
      * unfold ret. rewrite Hu. by eexists.
  - unfold bind at 1. unfold when at 1. unfold ret at 1.
    unfold bind at 1. unfold when at 1.
    destruct (flag_in "e" pu).
    + destruct (Hf true) as [->|[e ->]]; [|by eexists].
      unfold when. destruct (flag_in "c" pu).
      * rewrite Hc. by eexists.
      * unfold ret. rewrite Hu. by eexists.
    + unfold ret at 1. unfold when. destruct (flag_in "c" pu).
      * rewrite Hc. by eexists.
      * unfold ret. rewrite Hu. by eexists.
Qed.

End Groups.

Section Invariant.
Implicit Types (gs : GlobalSettingsObject) (g s items : dict).

(** The whole ['groups'] branch: its two halves put together. *)
Lemma apply_groups_run value gs :
  exists r gs1,
    same_but_default gs gs1
    /\ ((r = None /\ exists e, apply_groups value gs = (Raise e, gs1))
        \/ (exists g g',
              r = Some g'
              /\ gs1 !! "groups" = Some (VDict g)
              /\ apply_groups value gs = (Ok tt, <["groups" := VDict g']> gs1)
              /\ (dict_mem g "default" = false -> dict_mem g' "default" = false))).
Proof.
  destruct value as [| | | | |items];
    try (exists None, gs; split; [apply same_but_default_refl|];
         left; split; [done|by eexists]).
  destruct (for_fold_groups_item_run items items ([], []) gs eq_refl)
    as (r & gs1 & Hrun & Hsame & Hr).
  rewrite apply_groups_commit. unfold bind. rewrite Hrun.
  destruct r as [[gu pu]|e]; cbn [fst snd] in *.
  - destruct (gs1 !! "groups") as [v|] eqn:Hg.
    + destruct v as [| | | | |g].
      6:{ destruct (groups_commit_table gu pu gs1 g Hg) as (g' & -> & Hg').
          exists (Some g'), gs1. split; [done|]. right. exists g, g'.
          repeat split; try done.
          intros Hd. destruct (dict_mem g' "default") eqn:E; [|done].
          destruct (Hg' _ E); congruence. }
      all: destruct (groups_commit_no_table gu pu gs1) as [e ->];
        [intros g; rewrite Hg; discriminate|];
        exists None, gs1; split; [done|]; left; split; [done|by eexists].
    + destruct (groups_commit_no_table gu pu gs1) as [e ->];
        [intros g; rewrite Hg; discriminate|].
      exists None, gs1. split; [done|]. left. split; [done|by eexists].
  - exists None, gs1. split; [done|]. left. split; [done|by eexists].
Qed.

(** X1: when the ['groups'] branch raises, whatever the structure and
    whatever the state, nothing but the ['default'] slot can have changed:
    the group table is written only after the whole structure was read and
    accepted. *)
Theorem apply_groups_failure_keeps_table value gs e gs' :
  apply_groups value gs = (Raise e, gs') ->
  forall k, k <> "default" -> gs' !! k = gs !! k.
Proof.
  intros Hrun.
  destruct (apply_groups_run value gs) as (r & gs1 & Hsame & [[_ [e1 H1]]|H2]).
  - rewrite H1 in Hrun. injection Hrun as _ <-. exact Hsame.
  - destruct H2 as (g & g' & _ & _ & H2 & _). rewrite H2 in Hrun. discriminate.
Qed.

Lemma apply_groups_failure_keeps_table_witness :
  let gs := <["groups" := VDict [("a", VBool true)]]> _GLOBAL_SETTINGS in
  let value := VDict [("disable_previous", VBool true);
                      ("default", VBool false);
                      ("set", VDict [("default", VBool true)])] in
  apply_groups value gs
  = (Raise (KeyError reserved_group_message), <["default" := VBool false]> gs)
  /\ <["default" := VBool false]> gs !! "groups" = gs !! "groups".
Proof.
  intros gs value. split; [reflexivity|].
  apply (apply_groups_failure_keeps_table value gs
           (KeyError reserved_group_message) (<["default" := VBool false]> gs)
           eq_refl "groups").
  discriminate.
Defined.

Lemma settings_ok_same_but_default gs gs' :
  same_but_default gs gs' -> settings_ok gs -> settings_ok gs'.
Proof.
  intros Hsame ((g & Hg & Hd) & (m & Hm) & He). repeat split.
  - exists g. by rewrite Hsame.
  - exists m. by rewrite Hsame.
  - by rewrite Hsame.
Qed.

Lemma settings_ok_init : settings_ok GlobalSettingsObject_init.
Proof. repeat split; [by exists []|by exists invariant|by eexists]. Qed.

Lemma apply_option_keeps_ok kv gs :
  settings_ok gs -> settings_ok (snd (apply_option kv gs)).
Proof.
  intros Hok. destruct kv as [key value]. unfold apply_option.
  destruct (String.eqb key "enabled").
  { destruct (is_None value); [done|]. cbn.
    destruct Hok as ((g & Hg & Hd) & (m & Hm) & He). repeat split.
    - exists g. by rewrite lookup_insert_ne.
    - exists m. by rewrite lookup_insert_ne.
    - rewrite lookup_insert_eq. by eexists. }
  destruct (String.eqb key "groups").
  { destruct (apply_groups_run value gs) as (r & gs1 & Hsame & [[_ [e1 ->]]|H2]).
    - cbn. by eapply settings_ok_same_but_default.
    - destruct H2 as (g & g' & _ & Hg & -> & Hd). cbn.
      destruct (settings_ok_same_but_default _ _ Hsame Hok)
        as ((g0 & Hg0 & Hd0) & (m & Hm) & He).
      assert (g0 = g) as -> by congruence.
      repeat split.
      + exists g'. rewrite lookup_insert_eq. split; [done|]. by apply Hd.
      + exists m. by rewrite lookup_insert_ne.
      + by rewrite lookup_insert_ne. }
  destruct (String.eqb key "mode"); [|done].
  destruct (is_None value); [done|]. cbn [negb when].
  assert (forall m, settings_ok (<["mode" := VMode m]> gs)) as Hstore.
  { intros m. destruct Hok as ((g & Hg & Hd) & _ & He). repeat split.
    - exists g. by rewrite lookup_insert_ne.
    - exists m. by rewrite lookup_insert_eq.
    - by rewrite lookup_insert_ne. }
  destruct value as [| | |name| |]; try done. cbn.
  destruct (ModeChoices_by_name name); [apply Hstore|done].
Qed.

Lemma for_each_apply_option_keeps_ok items gs :
  settings_ok gs -> settings_ok (snd (for_each items apply_option gs)).
Proof.
  revert gs. induction items as [|kv tl IH]; intros gs Hok; [done|].
  cbn [for_each]. unfold bind.
  pose proof (apply_option_keeps_ok kv gs Hok) as H1.
  destruct (apply_option kv gs) as [[[]|e] gs1]; cbn [snd] in H1; [by apply IH|done].
Qed.

(** X2: [apply_config] keeps the shape of the global object.  If the
    ['groups'] slot holds a table without an entry for the reserved name
    ['default'], the ['mode'] slot a member of [ModeChoices] and the
    ['enabled'] slot is present, the same is true after any call, with any
    options and any [reset], whether the call returns or raises. *)
Theorem apply_config_keeps_ok options reset gs :
  settings_ok gs -> settings_ok (snd (apply_config options reset gs)).
Proof.
  intros Hok. unfold apply_config.
  destruct (truthy reset).
  - destruct Hok as ((g & Hg & _) & _).
    rewrite (reset_config_restores gs g Hg). apply settings_ok_init.
  - destruct (is_None options); [done|].
    destruct options as [| | | | |items]; try done.
    by apply for_each_apply_option_keeps_ok.
Qed.

Lemma apply_config_keeps_ok_witness :
  settings_ok _GLOBAL_SETTINGS
  /\ settings_ok
       (snd (apply_config
               (VDict [("enabled", VInt 0);
                       ("groups", VDict [("set", VDict [("g", VBool true)]);
                                         ("bogus", VNone)])])
               (VBool false) _GLOBAL_SETTINGS)).
Proof.
  split; [apply settings_ok_init|].
  apply (apply_config_keeps_ok _ (VBool false) _GLOBAL_SETTINGS settings_ok_init).
Defined.

(** X3: no call of [apply_config] enables the default group.  On a global
    object of the shape above, after any call, a [Settings] instance built
    without a group name (or with an empty one) and without a local
    override reads [enabled] as [False]. *)
Theorem default_group_never_enabled options reset gs group_name :
  settings_ok gs ->
  group_name = None \/ group_name = Some EmptyString ->
  fst (enabled (Settings_init VNone group_name)
         (snd (apply_config options reset gs)))
  = Ok (VBool false).
Proof.
  intros Hok Hname.
  destruct (apply_config_keeps_ok options reset gs Hok)
    as ((g & Hg & Hd) & _ & (e & He)).
  set (gs' := snd (apply_config options reset gs)) in *.
  assert (group (Settings_init VNone group_name) = "default") as Hgroup
    by (by destruct Hname as [-> | ->]).
  unfold enabled. rewrite (bind_Ok _ _ _ _ _ (getitem_Some _ _ _ He)).
  destruct (truthy e); [|done]. cbn [negb _enabled Settings_init is_None].
  rewrite (bind_Ok _ _ _ _ _ (getitem_Some _ _ _ Hg)).
  cbn [ret fst]. unfold dict_get_default.
  change (group _) with (group (Settings_init VNone group_name)).
  rewrite Hgroup. unfold dict_mem in Hd. by destruct (dict_get g "default").
Qed.

Lemma default_group_never_enabled_witness :
  settings_ok _GLOBAL_SETTINGS
  /\ fst (enabled (Settings_init VNone None)
            (snd (apply_config
                    (VDict [("groups", VDict [("enable_previous", VBool true);
                                              ("default", VBool true)])])
                    (VBool false) _GLOBAL_SETTINGS)))
     = Ok (VBool false).
Proof.
  split; [apply settings_ok_init|].
  apply (default_group_never_enabled _ (VBool false) _GLOBAL_SETTINGS None
           settings_ok_init).
  by left.
Defined.

End Invariant.

(** ** The variance mode, read back *)

Section ModeReads.
Implicit Types (gs : GlobalSettingsObject) (self : Settings).

(** X4: a mode stored by name is read back by every accessor.  After
    [apply_config({'mode': name})] for the name of a member [m], on any
    state, [Settings.mode] is [m], [covariant] is true exactly for
    [covariant] and [bivariant], and [contravariant] exactly for
    [contravariant] and [bivariant]. *)
Theorem mode_round_trip gs self m :
  exists gs',
    apply_config (VDict [("mode", VStr (ModeChoices_name m))]) (VBool false) gs
    = (Ok tt, gs')
    /\ mode self gs' = (Ok (VMode m), gs')
    /\ is_covariant self gs' = (Ok (VBool (covariant_member m)), gs')
    /\ is_contravariant self gs' = (Ok (VBool (contravariant_member m)), gs').
Proof.
  exists (<["mode" := VMode m]> gs).
  assert (<["mode" := VMode m]> gs !! "mode" = Some (VMode m)) as Hm
    by apply lookup_insert_eq.
  split; [by destruct m|].
  unfold mode, is_covariant, is_contravariant.
  rewrite !(bind_Ok _ _ _ _ _ (getitem_Some _ _ _ Hm)).
  by destruct m.
Qed.

(** X5: the three mode accessors agree.  Whenever [Settings.mode] returns a
    member, be it the stored one or [invariant] standing in for a false
    value such as [None], [covariant] and [contravariant] return the flags
    of that member. *)
Theorem mode_accessors_agree gs self m :
  mode self gs = (Ok (VMode m), gs) ->
  is_covariant self gs = (Ok (VBool (covariant_member m)), gs)
  /\ is_contravariant self gs = (Ok (VBool (contravariant_member m)), gs).
Proof.
  unfold mode, is_covariant, is_contravariant, bind, getitem, ret.
  destruct (gs !! "mode") as [v|]; [|done].
  destruct v as [|[]|z|name|m'|[|]]; cbn.
  all: try match goal with
           | |- context [if ?c then _ else _] => destruct c
           end.
  all: intros [= <-]; try done.
Qed.

Lemma mode_accessors_agree_witness :
  let gs := <["mode" := VNone]> _GLOBAL_SETTINGS in
  mode (Settings_init VNone None) gs = (Ok (VMode invariant), gs)
  /\ is_covariant (Settings_init VNone None) gs = (Ok (VBool false), gs).
Proof.
  intros gs. split; [reflexivity|].
  apply (proj1 (mode_accessors_agree gs (Settings_init VNone None) invariant eq_refl)).
Defined.

End ModeReads.

(** ** One call, several keys *)

Section Sequencing.
Implicit Types (gs : GlobalSettingsObject) (g s items : dict).

(** X6: a call with several top-level keys is the calls for its parts, one
    after the other: [apply_config] on the items [items1 ++ items2] behaves
    as [apply_config] on [items1] followed, if that returned, by
    [apply_config] on [items2], with the same result and the same final
    state. *)
Theorem apply_config_sequence items1 items2 gs :
  apply_config (VDict (items1 ++ items2)%list) (VBool false) gs =
  (apply_config (VDict items1) (VBool false) >>
   apply_config (VDict items2) (VBool false)) gs.
Proof.
  unfold apply_config. cbn [truthy is_None]. rewrite for_each_app.
  unfold bind. by destruct (for_each items1 apply_option gs) as [[[]|e] gs1].
Qed.

(** X7: a failing call is not rolled back.  An ['enabled'] value that
    precedes an unknown key stays stored when the unknown key raises; and
    inside ['groups'] a ['default'] value that precedes a rejected ['set']
    stays stored, while one that follows it is never stored. *)
Theorem apply_config_not_atomic gs v key value d x :
  is_None v = false ->
  known_option key = false ->
  is_None d = false ->
  apply_config (VDict [("enabled", v); (key, value)]) (VBool false) gs
  = (Raise (KeyError (unknown_option_message key)), <["enabled" := v]> gs)
  /\ apply_config
       (VDict [("groups", VDict [("default", d); ("set", VDict [("default", x)])])])
       (VBool false) gs
     = (Raise (KeyError reserved_group_message), <["default" := d]> gs)
  /\ apply_config
       (VDict [("groups", VDict [("set", VDict [("default", x)]); ("default", d)])])
       (VBool false) gs
     = (Raise (KeyError reserved_group_message), gs).
Proof.
  intros Hv Hk Hd. split; [|split].
  - unfold apply_config. cbn [truthy is_None for_each].
    unfold bind at 1.
    assert (apply_option ("enabled", v) gs = (Ok tt, <["enabled" := v]> gs)) as ->
      by (by destruct v).
    by rewrite (bind_Raise _ _ _ _ _ (apply_option_unknown key value _ Hk)).
  - by destruct d.
  - reflexivity.
Qed.

Lemma apply_config_not_atomic_witness :
  apply_config (VDict [("enabled", VBool false); ("bogus", VInt 1)])
    (VBool false) _GLOBAL_SETTINGS
  = (Raise (KeyError "Unknown option 'bogus'"),
     <["enabled" := VBool false]> _GLOBAL_SETTINGS).
Proof.
  apply (proj1 (apply_config_not_atomic _GLOBAL_SETTINGS (VBool false) "bogus"
                  (VInt 1) (VBool false) (VBool true) eq_refl eq_refl eq_refl)).
Defined.

End Sequencing.

(** ** The bulk flags *)

Section Flags.
Implicit Types (gs : GlobalSettingsObject) (g s items : dict) (self : Settings).

Lemma for_fold_app {A S} (l1 l2 : list A) (body : S -> A -> M S) acc gs :
  for_fold (l1 ++ l2)%list body acc gs =
  match for_fold l1 body acc gs with
  | (Ok acc', gs') => for_fold l2 body acc' gs'
  | (Raise e, gs') => (Raise e, gs')
  end.
Proof.
  revert acc gs. induction l1 as [|x tl IH]; intros acc gs; [done|].
  cbn [app for_fold]. unfold bind.
  destruct (body acc x gs) as [[acc1|e] gs1]; [apply IH|done].
Qed.

Lemma groups_item_flag value gu pu k v l gs :
  flag_letter k = Some l ->
  groups_item value (gu, pu) (k, v) gs
  = (Ok (gu, if truthy v then (pu ++ [l])%list else pu), gs).
Proof.
  unfold flag_letter, groups_item.
  destruct (String.eqb k "disable_previous"); [by intros [= <-]|].
  destruct (String.eqb k "enable_previous"); [by intros [= <-]|].
  destruct (String.eqb k "clear_previous"); [by intros [= <-]|done].
Qed.

Lemma groups_item_unknown value acc k v gs :
  known_group_option k = false ->
  groups_item value acc (k, v) gs
  = (Raise (KeyError (unknown_group_option_message k)), gs).
Proof.
  unfold known_group_option, flag_letter, groups_item. destruct acc as [gu pu].
  destruct (String.eqb k "disable_previous"); [done|].
  destruct (String.eqb k "enable_previous"); [done|].
  destruct (String.eqb k "clear_previous"); [done|].
  destruct (String.eqb k "default"); [done|].
  by destruct (String.eqb k "set").
Qed.

(** The loop over a run of flags only records letters. *)
Lemma for_fold_flags value pre gu pu gs :
  forallb (fun kv => is_flag (fst kv)) pre = true ->
  for_fold pre (groups_item value) (gu, pu) gs
  = (Ok (gu, collected_flags pu pre), gs).
Proof.
  revert pu. induction pre as [|[k v] tl IH]; intros pu Hpre; [done|].
  cbn [forallb fst] in Hpre. apply andb_true_iff in Hpre as [Hk Htl].
  unfold is_flag in Hk. destruct (flag_letter k) as [l|] eqn:Hl; [|done].
  cbn [for_fold]. unfold bind.
  rewrite (groups_item_flag value gu pu k v l gs Hl).
  rewrite IH by done. unfold collected_flags. cbn [fold_left fst snd].
  by rewrite Hl.
Qed.

Lemma flag_in_app x pu1 pu2 :
  flag_in x (pu1 ++ pu2)%list = flag_in x pu1 || flag_in x pu2.
Proof. unfold flag_in. apply existsb_app. Qed.

Lemma flag_in_collected x pu items :
  flag_in x (collected_flags pu items) =
  flag_in x pu
  || existsb (fun kv => match flag_letter (fst kv) with
                        | Some l => String.eqb x l && truthy (snd kv)
                        | None => false
                        end) items.
Proof.
  unfold collected_flags. revert pu.
  induction items as [|[k v] tl IH]; intros pu.
  - simpl. by rewrite orb_false_r.
  - cbn [fold_left existsb fst snd]. rewrite IH.
    destruct (flag_letter k) as [l|]; [|done].
    destruct (truthy v).
    + rewrite flag_in_app. unfold flag_in at 2. cbn [existsb].
      rewrite orb_false_r, andb_true_r. by rewrite orb_assoc.
    + by rewrite andb_false_r.
Qed.

Lemma flag_letter_name k name l :
  flag_letter name = Some l ->
  (forall k', flag_letter k' = Some l -> k' = name) ->
  match flag_letter k with
  | Some l' => String.eqb l l'
  | None => false
  end = String.eqb k name.
Proof.
  intros Hname Huniq. destruct (String.eqb k name) eqn:E.
  - apply String.eqb_eq in E as ->. rewrite Hname. apply String.eqb_refl.
  - destruct (flag_letter k) as [l'|] eqn:Hl; [|done].
    destruct (String.eqb l l') eqn:El; [|done].
    apply String.eqb_eq in El as <-. apply Huniq in Hl as ->.
    by rewrite String.eqb_refl in E.
Qed.

Lemma flag_letter_inv k l :
  flag_letter k = Some l ->
  (l = "d" /\ k = "disable_previous")
  \/ (l = "e" /\ k = "enable_previous")
  \/ (l = "c" /\ k = "clear_previous").
Proof.
  unfold flag_letter.
  destruct (String.eqb k "disable_previous") eqn:E1;
    [apply String.eqb_eq in E1; intros [= <-]; by left|].
  destruct (String.eqb k "enable_previous") eqn:E2;
    [apply String.eqb_eq in E2; intros [= <-]; right; by left|].
  destruct (String.eqb k "clear_previous") eqn:E3;
    [apply String.eqb_eq in E3; intros [= <-]; right; by right|done].
Qed.

Lemma existsb_pointwise {A} (f f' : A -> bool) (l : list A) :
  (forall x, f x = f' x) -> existsb f l = existsb f' l.
Proof.
  intros Hf. induction l as [|x tl IH]; [done|]. cbn [existsb]. by rewrite Hf, IH.
Qed.

Lemma flag_in_collected_given items name l :
  flag_letter name = Some l ->
  flag_in l (collected_flags [] items) = flag_given items name.
Proof.
  intros Hname. rewrite flag_in_collected. cbn [flag_in existsb orb].
  unfold flag_given. apply existsb_pointwise. intros [k v]. cbn [fst snd].
  rewrite <- (flag_letter_name k name l Hname).
  - by destruct (flag_letter k).
  - intros k' Hk'.
    destruct (flag_letter_inv _ _ Hk') as [[-> ->]|[[-> ->]|[-> ->]]],
      (flag_letter_inv _ _ Hname) as [[? ->]|[[? ->]|[? ->]]]; done.
Qed.

(** The second half on a table, by the letters recorded. *)
Lemma groups_commit_flags gu pu gs g :
  gs !! "groups" = Some (VDict g) ->
  groups_commit gu pu gs =
  (Ok tt,
   <["groups" :=
       VDict (dict_update
                (table_after_flags g (flag_in "d" pu) (flag_in "e" pu) (flag_in "c" pu))
                gu)]> gs).
Proof.
  intros Hg. unfold groups_commit, table_after_flags.
  destruct pu as [|p pu'].
  - unfold when, bind, ret. cbn [flag_in existsb]. by groups_steps.
  - set (pu := p :: pu').
    destruct (flag_in "d" pu), (flag_in "e" pu), (flag_in "c" pu);
      unfold when, bind, ret; by groups_steps.
Qed.

Lemma apply_groups_flags items gs g :
  gs !! "groups" = Some (VDict g) ->
  forallb (fun kv => is_flag (fst kv)) items = true ->
  apply_groups (VDict items) gs =
  (Ok tt,
   <["groups" :=
       VDict (table_after_flags g
                (flag_given items "disable_previous")
                (flag_given items "enable_previous")
                (flag_given items "clear_previous"))]> gs).
Proof.
  intros Hg Hitems. rewrite apply_groups_commit. unfold bind.
  rewrite for_fold_flags by done. cbn [fst snd].
  rewrite (groups_commit_flags _ _ gs g Hg).
  rewrite (flag_in_collected_given items "disable_previous" "d" eq_refl).
  rewrite (flag_in_collected_given items "enable_previous" "e" eq_refl).
  by rewrite (flag_in_collected_given items "clear_previous" "c" eq_refl).
Qed.

Lemma flag_given_Permutation items items' name :
  Permutation items items' -> flag_given items name = flag_given items' name.
Proof.
  unfold flag_given. induction 1 as [|x l l' _ IH|x y l|l1 l2 l3 _ IH1 _ IH2].
  - done.
  - cbn [existsb]. by rewrite IH.
  - cbn [existsb]. by rewrite !orb_assoc, (orb_comm (_ && _) (_ && _)).
  - by rewrite IH1.
Qed.

Lemma forallb_Permutation {A} (f : A -> bool) (l l' : list A) :
  Permutation l l' -> forallb f l = forallb f l'.
Proof.
  induction 1 as [|x l l' _ IH|x y l|l1 l2 l3 _ IH1 _ IH2].
  - done.
  - cbn [forallb]. by rewrite IH.
  - cbn [forallb]. by rewrite !andb_assoc, (andb_comm (f y) (f x)).
  - by rewrite IH1.
Qed.

(** X8: on a structure that holds only the three flags, the ['groups']
    branch succeeds on any table and the table it stores is decided by
    which flags have a true value: disable-all, then enable-all, then
    clear.  The order in which the structure lists the flags does not
    matter. *)
Theorem flags_decide_the_table items gs g :
  gs !! "groups" = Some (VDict g) ->
  forallb (fun kv => is_flag (fst kv)) items = true ->
  apply_groups (VDict items) gs =
  (Ok tt,
   <["groups" :=
       VDict (table_after_flags g
                (flag_given items "disable_previous")
                (flag_given items "enable_previous")
                (flag_given items "clear_previous"))]> gs)
  /\ forall items',
       Permutation items items' ->
       apply_groups (VDict items') gs = apply_groups (VDict items) gs.
Proof.
  intros Hg Hitems. split; [by apply apply_groups_flags|].
  intros items' Hperm.
  rewrite (apply_groups_flags items' gs g), (apply_groups_flags items gs g); try done.
  - by rewrite !(flag_given_Permutation items items' _ Hperm).
  - by rewrite <- (forallb_Permutation _ _ _ Hperm).
Qed.

Lemma flags_decide_the_table_witness :
  let gs := <["groups" := VDict [("a", VBool false); ("b", VBool true)]]> _GLOBAL_SETTINGS in
  apply_groups (VDict [("enable_previous", VBool true);
                       ("disable_previous", VBool true)]) gs
  = (Ok tt, <["groups" := VDict [("a", VBool true); ("b", VBool true)]]> gs).
Proof.
  intros gs.
  apply (proj1 (flags_decide_the_table
                  [("enable_previous", VBool true); ("disable_previous", VBool true)]
                  gs [("a", VBool false); ("b", VBool true)] eq_refl eq_refl)).
Defined.

(** X9: a key of the ['groups'] structure outside [set], [default] and the
    three flags is rejected by name.  When only flags precede it, the call
    raises the unknown-group-option error on every state and writes
    nothing: the flags read so far are not applied. *)
Theorem unknown_group_option_rejected pre k v rest gs :
  forallb (fun kv => is_flag (fst kv)) pre = true ->
  known_group_option k = false ->
  apply_config (VDict [("groups", VDict (pre ++ (k, v) :: rest)%list)])
    (VBool false) gs
  = (Raise (KeyError (unknown_group_option_message k)), gs).
Proof.
  intros Hpre Hk. unfold apply_config. cbn [truthy is_None for_each].
  unfold bind at 1.
  change (apply_option ("groups", ?y) gs) with (apply_groups y gs).
  rewrite apply_groups_commit. unfold bind at 1.
  rewrite for_fold_app, for_fold_flags by done.
  cbn [for_fold]. unfold bind at 1.
  by rewrite groups_item_unknown.
Qed.

Lemma unknown_group_option_rejected_witness :
  apply_config
    (VDict [("groups", VDict [("clear_previous", VBool true); ("reset", VBool true)])])
    (VBool false) _GLOBAL_SETTINGS
  = (Raise (KeyError "Unknown option for groups 'reset'"), _GLOBAL_SETTINGS).
Proof.
  apply (unknown_group_option_rejected [("clear_previous", VBool true)]
           "reset" (VBool true) [] _GLOBAL_SETTINGS eq_refl eq_refl).
Defined.

End Flags.

(** ** What the views read after a call *)

Section Reading.
Implicit Types (gs : GlobalSettingsObject) (g s items : dict) (self : Settings).

Lemma enabled_reads_table gs self e g :
  _enabled self = VNone ->
  gs !! "enabled" = Some e ->
  truthy e = true ->
  gs !! "groups" = Some (VDict g) ->
  enabled self gs = (Ok (dict_get_default g (group self) (VBool false)), gs).
Proof.
  intros Hl He Ht Hg. unfold enabled.
  rewrite (bind_Ok _ _ _ _ _ (getitem_Some _ _ _ He)), Ht, Hl. cbn [negb is_None].
  by rewrite (bind_Ok _ _ _ _ _ (getitem_Some _ _ _ Hg)).
Qed.

Lemma apply_config_single key value gs :
  apply_config (VDict [(key, value)]) (VBool false) gs =
  match apply_option (key, value) gs with
  | (Ok _, gs') => (Ok tt, gs')
  | (Raise e, gs') => (Raise e, gs')
  end.
Proof.
  unfold apply_config. cbn [truthy is_None for_each]. unfold bind.
  by destruct (apply_option (key, value) gs) as [[[]|e] gs1].
Qed.

Lemma apply_config_groups gs value :
  apply_config (VDict [("groups", value)]) (VBool false) gs =
  match apply_groups value gs with
  | (Ok _, gs') => (Ok tt, gs')
  | (Raise e, gs') => (Raise e, gs')
  end.
Proof. apply apply_config_single. Qed.

Lemma apply_config_one_flag gs g name l v :
  flag_letter name = Some l ->
  truthy v = true ->
  gs !! "groups" = Some (VDict g) ->
  apply_config (VDict [("groups", VDict [(name, v)])]) (VBool false) gs =
  (Ok tt,
   <["groups" :=
       VDict (table_after_flags g
                (String.eqb name "disable_previous")
                (String.eqb name "enable_previous")
                (String.eqb name "clear_previous"))]> gs).
Proof.
  intros Hname Hv Hg. rewrite apply_config_groups.
  rewrite (apply_groups_flags [(name, v)] gs g Hg).
  - unfold flag_given. cbn [existsb fst snd]. by rewrite Hv, !andb_true_r, !orb_false_r.
  - cbn [forallb fst]. unfold is_flag. by rewrite Hname.
Qed.

(** X10: what the bulk flags mean for the views.  With the global switch
    on, after [apply_config({'groups': {flag: v}})] with a true [v], an
    instance without a local override reads [False] for
    [disable_previous] and for [clear_previous], whatever its group; for
    [enable_previous] it reads [True] exactly when its group had an entry
    in the table. *)
Theorem views_after_flags gs g e self v :
  gs !! "enabled" = Some e ->
  truthy e = true ->
  gs !! "groups" = Some (VDict g) ->
  _enabled self = VNone ->
  truthy v = true ->
  let after name :=
    snd (apply_config (VDict [("groups", VDict [(name, v)])]) (VBool false) gs) in
  fst (enabled self (after "disable_previous")) = Ok (VBool false)
  /\ fst (enabled self (after "clear_previous")) = Ok (VBool false)
  /\ fst (enabled self (after "enable_previous"))
     = Ok (VBool (dict_mem g (group self))).
Proof.
  intros He Ht Hg Hl Hv after. unfold after.
  rewrite (apply_config_one_flag gs g "disable_previous" "d" v eq_refl Hv Hg).
  rewrite (apply_config_one_flag gs g "clear_previous" "c" v eq_refl Hv Hg).
  rewrite (apply_config_one_flag gs g "enable_previous" "e" v eq_refl Hv Hg).
  cbn [snd].
  assert (forall t, <["groups" := t]> gs !! "enabled" = Some e) as He'
    by (intros t; by rewrite lookup_insert_ne).
  repeat split.
  - rewrite (enabled_reads_table _ self e _ Hl (He' _) Ht (lookup_groups_insert _ _)).
    cbn [fst]. unfold dict_get_default, table_after_flags.
    change (String.eqb "disable_previous" "disable_previous") with true.
    change (String.eqb "disable_previous" "enable_previous") with false.
    change (String.eqb "disable_previous" "clear_previous") with false.
    cbv iota. rewrite dict_get_set_all. by destruct (dict_mem g (group self)).
  - by rewrite (enabled_reads_table _ self e _ Hl (He' _) Ht (lookup_groups_insert _ _)).
  - rewrite (enabled_reads_table _ self e _ Hl (He' _) Ht (lookup_groups_insert _ _)).
    cbn [fst]. unfold dict_get_default, table_after_flags.
    change (String.eqb "enable_previous" "disable_previous") with false.
    change (String.eqb "enable_previous" "enable_previous") with true.
    change (String.eqb "enable_previous" "clear_previous") with false.
    cbv iota. rewrite dict_get_set_all. by destruct (dict_mem g (group self)).
Qed.

Lemma views_after_flags_witness :
  let gs := <["groups" := VDict [("g", VBool false)]]> _GLOBAL_SETTINGS in
  fst (enabled (Settings_init VNone (Some "g"))
         (snd (apply_config (VDict [("groups", VDict [("enable_previous", VInt 1)])])
                 (VBool false) gs)))
  = Ok (VBool true).
Proof.
  intros gs.
  apply (proj2 (proj2 (views_after_flags gs [("g", VBool false)] (VBool true)
                         (Settings_init VNone (Some "g")) (VInt 1)
                         eq_refl eq_refl eq_refl eq_refl eq_refl))).
Defined.

(** *** The entries of ['set'] *)

(** X11: ['set'] changes the groups it names and no others.  With the
    global switch on, after [apply_config({'groups': {'set': s}})] for an
    [s] that does not name the reserved group, an instance without a local
    override reads the status [s] gives its group when there is one that
    is not [None], and otherwise reads what it read before the call. *)
Theorem set_changes_named_groups gs g e s self :
  gs !! "enabled" = Some e ->
  truthy e = true ->
  gs !! "groups" = Some (VDict g) ->
  _enabled self = VNone ->
  NoDup s.*1 ->
  dict_mem s "default" = false ->
  exists gs',
    apply_config (VDict [("groups", VDict [("set", VDict s)])]) (VBool false) gs
    = (Ok tt, gs')
    /\ fst (enabled self gs') =
       match dict_get s (group self) with
       | Some status => if is_None status then fst (enabled self gs) else Ok status
       | None => fst (enabled self gs)
       end.
Proof.
  intros He Ht Hg Hl Hs Hd.
  exists (<["groups" := VDict (dict_update g (pending_updates s []))]> gs).
  split.
  - rewrite apply_config_groups, apply_groups_commit. unfold bind.
    cbn [for_fold]. unfold bind. unfold groups_item at 1.
    cbn [String.eqb Ascii.eqb Bool.eqb]. unfold bind.
    rewrite for_fold_set_item by done. cbn [ret fst snd].
    rewrite (groups_commit_flags _ _ gs g Hg). done.
  - assert (<["groups" := VDict (dict_update g (pending_updates s []))]> gs
              !! "enabled" = Some e) as He' by (by rewrite lookup_insert_ne).
    rewrite (enabled_reads_table _ self e _ Hl He' Ht (lookup_groups_insert _ _)).
    rewrite (enabled_reads_table gs self e g Hl He Ht Hg). cbn [fst].
    unfold dict_get_default.
    rewrite dict_update_get by (apply pending_updates_NoDup, NoDup_nil_2).
    rewrite pending_updates_get by done. cbn [dict_get].
    destruct (dict_get s (group self)) as [status|]; [|done].
    by destruct (is_None status).
Qed.

Lemma set_changes_named_groups_witness :
  let gs := <["groups" := VDict [("a", VBool true); ("b", VBool true)]]> _GLOBAL_SETTINGS in
  let s := [("a", VBool false); ("b", VNone)] in
  exists gs',
    apply_config (VDict [("groups", VDict [("set", VDict s)])]) (VBool false) gs
    = (Ok tt, gs')
    /\ fst (enabled (Settings_init VNone (Some "a")) gs') = Ok (VBool false).
Proof.
  intros gs s.
  assert (NoDup s.*1) as Hs.
  { apply NoDup_cons. split; [|apply NoDup_singleton].
    by intros [?|[]%elem_of_nil]%elem_of_cons. }
  destruct (set_changes_named_groups gs [("a", VBool true); ("b", VBool true)]
              (VBool true) s (Settings_init VNone (Some "a"))
              eq_refl eq_refl eq_refl eq_refl Hs eq_refl) as (gs' & Hrun & Hread).
  exists gs'. split; [exact Hrun|exact Hread].
Defined.

End Reading.

(** ** The global object as a container *)

Section Container.
Implicit Types (gs : GlobalSettingsObject).

(** X12: item access on [GlobalSettingsObject] round-trips.  A value stored
    under a key is read back under that key and no other key is affected;
    deleting the key makes the next read raise [KeyError] for it; deleting
    a key that is absent raises [KeyError] and changes nothing; and
    storing then deleting a key that was absent gives back the object as
    it was. *)
Theorem item_round_trip gs key value :
  (setitem key value >> getitem key) gs = (Ok value, <[key := value]> gs)
  /\ (forall k, k <> key ->
        fst (getitem k (snd (setitem key value gs))) = fst (getitem k gs))
  /\ (setitem key value >> delitem key >> getitem key) gs
     = (Raise (KeyError key), delete key gs)
  /\ (gs !! key = None ->
      delitem key gs = (Raise (KeyError key), gs)
      /\ (setitem key value >> delitem key) gs = (Ok tt, gs)).
Proof.
  split; [|split; [|split]].
  - unfold bind, setitem, getitem. by rewrite lookup_insert_eq.
  - intros k Hk. unfold setitem, getitem. cbn [snd].
    rewrite lookup_insert_ne by done. by destruct (gs !! k).
  - unfold bind, setitem, delitem, getitem.
    by rewrite lookup_insert_eq, lookup_delete_eq, delete_insert_eq.
  - intros Hkey. split.
    + unfold delitem. by rewrite Hkey.
    + unfold bind, setitem, delitem. rewrite lookup_insert_eq, delete_insert_eq.
      by rewrite delete_id.
Qed.

Lemma item_round_trip_witness :
  _GLOBAL_SETTINGS !! "extra" = None
  /\ (setitem "extra" (VInt 1) >> delitem "extra") _GLOBAL_SETTINGS
     = (Ok tt, _GLOBAL_SETTINGS).
Proof.
  split; [reflexivity|].
  apply (proj2 (proj2 (proj2 (proj2
           (item_round_trip _GLOBAL_SETTINGS "extra" (VInt 1)))) eq_refl)).
Defined.

(** X13: [len] counts the keys [__iter__] yields.  The keys are yielded
    once each and are exactly those a read succeeds on; storing under a
    new key adds one to the length, storing under an old one leaves it,
    and deleting a present key takes one off. *)
Theorem len_counts_keys gs :
  exists keys,
    iter_keys gs = (Ok keys, gs)
    /\ len gs = (Ok (length keys), gs)
    /\ NoDup keys
    /\ (forall k, k ∈ keys <-> exists v, getitem k gs = (Ok v, gs))
    /\ (forall k v,
          fst (len (snd (setitem k v gs)))
          = Ok (match gs !! k with
                | Some _ => length keys
                | None => S (length keys)
                end))
    /\ (forall k, is_Some (gs !! k) ->
          exists gs', delitem k gs = (Ok tt, gs')
                      /\ S (size gs') = length keys).
Proof.
  exists (map_to_list gs).*1.
  assert (length (map_to_list gs).*1 = size gs) as Hlen
    by (by rewrite length_fmap, length_map_to_list).
  split; [done|]. split; [unfold len; by rewrite Hlen|].
  split; [apply NoDup_fst_map_to_list|]. split; [|split].
  - intros k. rewrite list_elem_of_fmap. unfold getitem. split.
    + intros [[k' v] [-> Hkv]]. apply elem_of_map_to_list in Hkv.
      exists v. cbn [fst]. by rewrite Hkv.
    + intros [v Hv]. destruct (gs !! k) as [v'|] eqn:E; [|done].
      exists (k, v'). split; [done|]. by apply elem_of_map_to_list.
  - intros k v. unfold len, setitem. cbn [fst snd].
    rewrite map_size_insert, Hlen. by destruct (gs !! k).
  - intros k [v Hv]. exists (delete k gs). split.
    + unfold delitem. by rewrite Hv.
    + rewrite Hlen. rewrite map_size_delete, Hv.
      assert (size gs <> 0) as Hne.
      { intros H0. apply map_size_empty_inv in H0. by rewrite H0 in Hv. }
      destruct (size gs); [done|]. by cbn.
Qed.

Lemma len_counts_keys_witness :
  exists (keys : list string) gs',
    len _GLOBAL_SETTINGS = (Ok (length keys), _GLOBAL_SETTINGS)
    /\ delitem "mode" _GLOBAL_SETTINGS = (Ok tt, gs')
    /\ S (size gs') = length keys.
Proof.
  destruct (len_counts_keys _GLOBAL_SETTINGS)
    as (keys & _ & Hlen & _ & _ & _ & Hdel).
  destruct (Hdel "mode" (ex_intro _ (VMode invariant) eq_refl))
    as (gs' & Hrun & Hsize).
  exists keys, gs'. split; [exact Hlen|]. split; [exact Hrun|exact Hsize].
Defined.

End Container.

(** ** [reset_config] without a group table *)

Section ResetEdges.
Implicit Types (gs : GlobalSettingsObject) (g : dict).

(** Up to its last statement [reset_config] always succeeds: it leaves the
    three plain defaults and whatever the ['groups'] slot held. *)
Lemma reset_config_prefix gs :
  exists gs1,
    (forall k, gs1 !! k = if dict_mem default_values k then gs !! k else None)
    /\ reset_config gs =
       groups_clear
         (<["mode" := VMode invariant]>
            (<["default" := VBool true]> (<["enabled" := VBool true]> gs1))).
Proof.
  unfold reset_config, iter_keys. unfold bind at 1.
  set (rm := filter _ _).
  assert (for_each rm delitem gs
          = (Ok tt, fold_left (fun m key => delete key m) rm gs)) as Hrm.
  { apply for_each_delitem.
    - apply NoDup_filter, NoDup_fst_map_to_list.
    - intros k Hk. by apply keys_to_remove_spec in Hk as [_ ?]. }
  rewrite (bind_Ok _ _ _ _ _ Hrm).
  exists (fold_left (fun m key => delete key m) rm gs). split; [|done].
  intros k. rewrite lookup_delete_all. unfold rm.
  destruct (dict_mem default_values k) eqn:Hk.
  - rewrite decide_False; [done|].
    intros [? _]%keys_to_remove_spec. congruence.
  - case_decide as Hin; [done|].
    destruct (gs !! k) eqn:Hv; [|done].
    exfalso. apply Hin, keys_to_remove_spec. by rewrite Hv.
Qed.

(** X14: [reset_config] does not recreate the group table.  On an object
    whose ['groups'] slot was deleted it raises [KeyError] for ['groups']
    after having removed every extra key and restored [enabled], [default]
    and [mode]; on one whose slot holds something that is not a table it
    raises [AttributeError] in the same state, the slot left as it was. *)
Theorem reset_needs_group_table gs :
  (gs !! "groups" = None ->
   reset_config gs =
   (Raise (KeyError "groups"),
    {[ "enabled" := VBool true; "default" := VBool true;
       "mode" := VMode invariant ]}))
  /\ (forall v,
        gs !! "groups" = Some v ->
        (forall g, v <> VDict g) ->
        reset_config gs =
        (Raise AttributeError,
         {[ "enabled" := VBool true; "default" := VBool true;
            "mode" := VMode invariant; "groups" := v ]})).
Proof.
  destruct (reset_config_prefix gs) as (gs1 & Hgs1 & ->).
  set (gs3 := <["mode" := _]> _).
  assert (gs3 !! "groups" = gs !! "groups") as Hgroups.
  { unfold gs3. rewrite !lookup_insert_ne by done. by rewrite Hgs1. }
  assert (forall k, "enabled" <> k -> "default" <> k -> "mode" <> k ->
                    "groups" <> k -> gs3 !! k = None) as Hother.
  { intros k H1 H2 H3 H4. unfold gs3. rewrite !lookup_insert_ne by done.
    by rewrite Hgs1, dict_mem_default_values. }
  assert (gs3 !! "enabled" = Some (VBool true)) as Hen
    by (unfold gs3; by rewrite !lookup_insert_ne, lookup_insert_eq by done).
  assert (gs3 !! "default" = Some (VBool true)) as Hde
    by (unfold gs3; by rewrite !lookup_insert_ne, lookup_insert_eq by done).
  assert (gs3 !! "mode" = Some (VMode invariant)) as Hmo
    by (unfold gs3; by rewrite lookup_insert_eq).
  clearbody gs3.
  split.
  - intros Hg. unfold groups_clear, bind, getitem. rewrite Hgroups, Hg.
    f_equal. apply map_eq. intros k.
    destruct (decide ("groups" = k)) as [<-|H4]; [by rewrite Hgroups, Hg|].
    destruct (decide ("enabled" = k)) as [<-|H1]; [by rewrite Hen|].
    destruct (decide ("default" = k)) as [<-|H2]; [by rewrite Hde|].
    destruct (decide ("mode" = k)) as [<-|H3]; [by rewrite Hmo|].
    rewrite Hother by done.
    by rewrite !lookup_insert_ne, lookup_singleton_ne by done.
  - intros v Hg Hv. unfold groups_clear, bind, getitem. rewrite Hgroups, Hg.
    assert (gs3 = {[ "enabled" := VBool true; "default" := VBool true;
                     "mode" := VMode invariant; "groups" := v ]}) as ->.
    { apply map_eq. intros k.
      destruct (decide ("groups" = k)) as [<-|H4].
      { rewrite Hgroups, Hg. rewrite !lookup_insert_ne by done.
        by rewrite lookup_singleton_eq. }
      destruct (decide ("enabled" = k)) as [<-|H1]; [by rewrite Hen|].
      destruct (decide ("default" = k)) as [<-|H2]; [by rewrite Hde|].
      destruct (decide ("mode" = k)) as [<-|H3]; [by rewrite Hmo|].
      rewrite Hother by done.
      by rewrite !lookup_insert_ne, lookup_singleton_ne by done. }
    destruct v; try done. by destruct (Hv items).
Qed.

Lemma reset_needs_group_table_witness :
  let gs := <["extra" := VInt 1]> (delete "groups" _GLOBAL_SETTINGS) in
  gs !! "groups" = None
  /\ reset_config gs =
     (Raise (KeyError "groups"),
      {[ "enabled" := VBool true; "default" := VBool true;
         "mode" := VMode invariant ]}).
Proof.
  intros gs. split; [reflexivity|].
  apply (proj1 (reset_needs_group_table gs) eq_refl).
Defined.

End ResetEdges.

(** ** Reads, the switch and [None] *)

Section Quiet.
Implicit Types (gs : GlobalSettingsObject) (g s : dict) (self : Settings).

(** X15: the accessors of [Settings] only read.  Whether they return or
    raise, [enabled], [mode], [covariant], [contravariant] and the truth
    value leave the global object as it was; and the truth value, when
    there is one, is the boolean of what [enabled] returns. *)
Theorem accessors_only_read gs self :
  snd (enabled self gs) = gs
  /\ snd (mode self gs) = gs
  /\ snd (is_covariant self gs) = gs
  /\ snd (is_contravariant self gs) = gs
  /\ snd (Settings_bool self gs) = gs
  /\ (forall v, fst (Settings_bool self gs) = Ok v ->
        exists e, fst (enabled self gs) = Ok e /\ v = VBool (truthy e)).
Proof.
  assert (snd (enabled self gs) = gs) as Hen.
  { unfold enabled, bind, getitem.
    destruct (gs !! "enabled") as [e|]; [|done]. cbn.
    destruct (negb (truthy e)); [done|].
    destruct (is_None (_enabled self)); [|done].
    destruct (gs !! "groups") as [[]|]; done. }
  split; [done|].
  split; [unfold mode, bind, getitem; by destruct (gs !! "mode")|].
  split; [unfold is_covariant, bind, getitem; by destruct (gs !! "mode")|].
  split; [unfold is_contravariant, bind, getitem; by destruct (gs !! "mode")|].
  unfold Settings_bool, bind.
  destruct (enabled self gs) as [[e|x] gs1]; cbn [fst snd] in *.
  - split; [done|]. intros v [= <-]. by exists e.
  - split; [done|]. by intros v.
Qed.

Lemma accessors_only_read_witness :
  fst (Settings_bool (Settings_init (VInt 2) None) _GLOBAL_SETTINGS)
  = Ok (VBool true)
  /\ exists e,
       fst (enabled (Settings_init (VInt 2) None) _GLOBAL_SETTINGS) = Ok e
       /\ VBool true = VBool (truthy e).
Proof.
  split; [reflexivity|].
  apply (proj2 (proj2 (proj2 (proj2 (proj2
           (accessors_only_read _GLOBAL_SETTINGS (Settings_init (VInt 2) None))))))
           (VBool true) eq_refl).
Defined.

(** X16: switching type checking off and on again restores the global
    object.  From a state whose switch reads [True],
    [apply_config({'enabled': False})] followed by
    [apply_config({'enabled': True})] returns twice and ends in the state
    it started from; in between only the switch differs. *)
Theorem switch_off_and_on gs :
  gs !! "enabled" = Some (VBool true) ->
  apply_config (VDict [("enabled", VBool false)]) (VBool false) gs
  = (Ok tt, <["enabled" := VBool false]> gs)
  /\ (apply_config (VDict [("enabled", VBool false)]) (VBool false) >>
      apply_config (VDict [("enabled", VBool true)]) (VBool false)) gs
     = (Ok tt, gs).
Proof.
  intros He. split; [done|].
  unfold bind, apply_config. cbn. unfold bind, setitem. cbn.
  by rewrite insert_insert_eq, insert_id.
Qed.

Lemma switch_off_and_on_witness :
  _GLOBAL_SETTINGS !! "enabled" = Some (VBool true)
  /\ (apply_config (VDict [("enabled", VBool false)]) (VBool false) >>
      apply_config (VDict [("enabled", VBool true)]) (VBool false)) _GLOBAL_SETTINGS
     = (Ok tt, _GLOBAL_SETTINGS).
Proof.
  split; [reflexivity|].
  apply (proj2 (switch_off_and_on _GLOBAL_SETTINGS eq_refl)).
Defined.

Lemma pending_updates_all_None s acc :
  forallb (fun kv => is_None (snd kv)) s = true -> pending_updates s acc = acc.
Proof.
  unfold pending_updates. induction s as [|[k v] tl IH]; [done|].
  cbn [forallb fold_left fst snd]. intros [Hv Htl]%andb_true_iff.
  rewrite Hv. by apply IH.
Qed.

(** X17: [None] means no change.  On an object with a group table, a
    fully shaped structure whose [enabled], [mode] and [default] are
    [None], whose flags are all false and whose ['set'] gives [None] to
    every group it names (the reserved name not among them) is applied
    without error and leaves the global object exactly as it was. *)
Theorem none_means_no_change gs g s fd fe fc :
  gs !! "groups" = Some (VDict g) ->
  dict_mem s "default" = false ->
  forallb (fun kv => is_None (snd kv)) s = true ->
  truthy fd = false -> truthy fe = false -> truthy fc = false ->
  apply_config (shaped_options VNone (shaped_groups s fd fe fc VNone) VNone)
    (VBool false) gs
  = (Ok tt, gs).
Proof.
  intros Hg Hd Hs Hfd Hfe Hfc.
  rewrite (apply_config_groups_only gs g s fd fe fc Hg Hd).
  unfold groups_after. rewrite Hfd, Hfe, Hfc, pending_updates_all_None by done.
  cbn [dict_update fold_left]. by rewrite insert_id.
Qed.

Lemma none_means_no_change_witness :
  let gs := <["groups" := VDict [("a", VBool true)]]> _GLOBAL_SETTINGS in
  apply_config
    (shaped_options VNone
       (shaped_groups [("a", VNone); ("b", VNone)] (VBool false) VNone (VInt 0) VNone)
       VNone)
    (VBool false) gs
  = (Ok tt, gs).
Proof.
  intros gs.
  apply (none_means_no_change gs [("a", VBool true)] [("a", VNone); ("b", VNone)]
           (VBool false) VNone (VInt 0) eq_refl eq_refl eq_refl eq_refl eq_refl eq_refl).
Defined.

End Quiet.
